(** * Sprint Pulse: row-level policies, constraints, triggers and the
      multi-row write paths of the API, as a shallow embedding.

    Sources embedded here:
    - supabase/migrations/20260203071900_init_db.sql (tables, check and
      foreign-key constraints, row-level security policies, triggers);
    - supabase/migrations/20260211124400_create_survey_with_questions_rpc.sql;
    - the Zod schemas (QuestionTypeEnum, DateString, CreateSprintSchema,
      UpdateSprintSchema, CreateSurveySchema);
    - the route handlers for teams, sprints and surveys (both survey
      creation variants).

    The relational store is modelled as a record of finite maps keyed by
    primary key; every statement is a function from a database state to a
    result and a new state.  A statement that fails leaves the state as it
    was (each PostgREST call and each RPC call is one transaction). *)

From stdpp Require Import base option list gmap strings numbers sorting.
From Stdlib Require Import ZArith String Ascii.

Local Open Scope string_scope.

(** ** Identifiers, instants, enumerations *)

Definition uuid := positive.
Definition timestamptz := Z.

(** account_members.role check (role in ('owner','admin','member')) *)
Inductive account_role := owner | admin | member.

(** team_members.role check (role in ('lead','contributor','stakeholder')) *)
Inductive team_role := lead | contributor | stakeholder.

(** SprintStatusEnum / sprints.status check *)
Inductive sprint_status := planned | active | completed.

(** WorkItemStatusEnum / work_items.status check *)
Inductive work_item_status := todo | in_progress | review | done.

(** QuestionTypeEnum = z.enum(['scale', 'text', 'boolean']) *)
Inductive QuestionTypeEnum := qt_scale | qt_text | qt_boolean.

#[global] Instance account_role_eq_dec : EqDecision account_role.
Proof. solve_decision. Defined.
#[global] Instance team_role_eq_dec : EqDecision team_role.
Proof. solve_decision. Defined.
#[global] Instance sprint_status_eq_dec : EqDecision sprint_status.
Proof. solve_decision. Defined.
#[global] Instance work_item_status_eq_dec : EqDecision work_item_status.
Proof. solve_decision. Defined.
#[global] Instance QuestionTypeEnum_eq_dec : EqDecision QuestionTypeEnum.
Proof. solve_decision. Defined.

(** The string a QuestionTypeEnum member is on the wire; this is the value
    both creation paths write into survey_questions.response_type. *)
Definition question_type_text (t : QuestionTypeEnum) : string :=
  match t with
  | qt_scale => "scale"
  | qt_text => "text"
  | qt_boolean => "boolean"
  end.

(** ** Calendar dates

    A Postgres [date] is a calendar day; comparison is chronological, which
    on (year, month, day) is the lexicographic order. *)

Record date := Date { d_year : N; d_month : N; d_day : N }.

#[global] Instance date_eq_dec : EqDecision date.
Proof. solve_decision. Defined.

Definition date_leb (a b : date) : bool :=
  if (d_year a <? d_year b)%N then true
  else if (d_year b <? d_year a)%N then false
  else if (d_month a <? d_month b)%N then true
  else if (d_month b <? d_month a)%N then false
  else (d_day a <=? d_day b)%N.

(** [end_date >= start_date] *)
Definition date_geb (a b : date) : bool := date_leb b a.

Definition is_digit (c : ascii) : bool :=
  let n := nat_of_ascii c in (48 <=? n)%nat && (n <=? 57)%nat.

Definition digit_val (c : ascii) : N := N.of_nat (nat_of_ascii c - 48).

(** DateString = z.string().regex(/^\d{4}-\d{2}-\d{2}$/) *)
Definition DateString (s : string) : bool :=
  match list_ascii_of_string s with
  | [y1; y2; y3; y4; h1; m1; m2; h2; d1; d2] =>
      is_digit y1 && is_digit y2 && is_digit y3 && is_digit y4
      && Ascii.eqb h1 "-" && is_digit m1 && is_digit m2
      && Ascii.eqb h2 "-" && is_digit d1 && is_digit d2
  | _ => false
  end.

Definition is_leap_year (y : N) : bool :=
  ((y mod 4 =? 0) && negb (y mod 100 =? 0) || (y mod 400 =? 0))%N.

Definition days_in_month (y m : N) : N :=
  match m with
  | 1 | 3 | 5 | 7 | 8 | 10 | 12 => 31
  | 4 | 6 | 9 | 11 => 30
  | 2 => if is_leap_year y then 29 else 28
  | _ => 0
  end%N.

(** The date input conversion applied to a YYYY-MM-DD text that reaches a
    [date] column: a text that is no calendar day is refused. *)
Definition date_in (s : string) : option date :=
  match list_ascii_of_string s with
  | [y1; y2; y3; y4; h1; m1; m2; h2; d1; d2] =>
      if DateString s then
        let y := (digit_val y1 * 1000 + digit_val y2 * 100
                  + digit_val y3 * 10 + digit_val y4)%N in
        let m := (digit_val m1 * 10 + digit_val m2)%N in
        let d := (digit_val d1 * 10 + digit_val d2)%N in
        if ((1 <=? y) && (1 <=? d) && (d <=? days_in_month y m))%N
        then Some (Date y m d) else None
      else None
  | _ => None
  end.

(** ** Storage errors *)

Inductive pg_error :=
  | insufficient_privilege (table : string)      (* 42501, row-level security *)
  | check_violation (table constraint : string)  (* 23514 *)
  | not_null_violation (table column : string)   (* 23502 *)
  | foreign_key_violation (table constraint : string) (* 23503 *)
  | unique_violation (constraint : string)       (* 23505 *)
  | cardinality_violation                        (* 21000 *)
  | datetime_field_overflow (text : string)      (* 22008 *)
  | raise_exception (msg : string)               (* P0001 *)
  | no_rows.                                     (* PGRST116, from .single() *)

Definition error_code (e : pg_error) : string :=
  match e with
  | insufficient_privilege _ => "42501"
  | check_violation _ _ => "23514"
  | not_null_violation _ _ => "23502"
  | foreign_key_violation _ _ => "23503"
  | unique_violation _ => "23505"
  | cardinality_violation => "21000"
  | datetime_field_overflow _ => "22008"
  | raise_exception _ => "P0001"
  | no_rows => "PGRST116"
  end.

(** The message text of an error (identifiers are printed without the
    quotation marks the server puts around them). *)
Definition error_message (e : pg_error) : string :=
  match e with
  | insufficient_privilege t =>
      "new row violates row-level security policy for table " ++ t
  | check_violation t c =>
      "new row for relation " ++ t ++ " violates check constraint " ++ c
  | not_null_violation t c =>
      "null value in column " ++ c ++ " of relation " ++ t
      ++ " violates not-null constraint"
  | foreign_key_violation t c =>
      "update or delete on table " ++ t
      ++ " violates foreign key constraint " ++ c
  | unique_violation c =>
      "duplicate key value violates unique constraint " ++ c
  | cardinality_violation =>
      "more than one row returned by a subquery used as an expression"
  | datetime_field_overflow s => "date/time field value out of range: " ++ s
  | raise_exception m => m
  | no_rows => "JSON object requested, multiple (or no) rows returned"
  end.

Inductive pg_result (A : Type) :=
  | Ok (a : A)
  | Err (e : pg_error).
Arguments Ok {A} a.
Arguments Err {A} e.

(** ** Rows and tables *)

Record account_row := {
  accounts_name : string;
  accounts_slug : string;
  accounts_is_test_tenant : option bool;   (* boolean default false, nullable *)
  accounts_owner_user_id : uuid;
  accounts_updated_at : timestamptz
}.

Record team_row := {
  teams_account_id : uuid;
  teams_name : string;
  teams_deleted_at : option timestamptz
}.

Record sprint_row := {
  sprints_team_id : uuid;
  sprints_account_id : uuid;
  sprints_name : string;
  sprints_goal : option string;
  sprints_start_date : date;
  sprints_end_date : date;
  sprints_status : sprint_status;
  sprints_updated_at : timestamptz
}.

Record survey_row := {
  surveys_team_id : option uuid;
  surveys_title : string;
  surveys_is_system_template : option bool; (* boolean default false *)
  surveys_account_id : uuid;
  surveys_is_active : bool
}.

(** A question row.  The generated [id] of a question is read by no
    statement embedded here, so the table is the list of its rows in
    insertion order. *)
Record survey_question_row := {
  sq_survey_id : option uuid;
  sq_question_text : string;
  sq_response_type : string;
  sq_order_index : Z;
  sq_is_required : option bool
}.

Record survey_response_row := {
  sr_survey_id : option uuid;
  sr_user_id : option uuid;
  sr_sprint_id : option uuid;
  sr_is_confidential : bool
}.

Record kudos_row := {
  kudos_team_id : option uuid;
  kudos_sender_user_id : option uuid;
  kudos_receiver_user_id : option uuid;
  kudos_sprint_id : option uuid;
  kudos_account_id : uuid;
  kudos_message : string
}.

Record work_item_row := {
  wi_team_id : uuid;
  wi_account_id : uuid;
  wi_sprint_id : option uuid;
  wi_title : string;
  wi_status : work_item_status;
  wi_completed_at : option timestamptz;
  wi_updated_at : timestamptz
}.

(** sprint_commitments and sprint_snapshots: only the sprint reference
    matters to the statements below. *)
Record sprint_child_row := {
  sc_sprint_id : uuid;
  sc_user_id : option uuid
}.

Record DB := {
  accounts : gmap uuid account_row;
  account_members : gmap (uuid * uuid) account_role; (* (account_id, user_id) *)
  teams : gmap uuid team_row;
  team_members : gmap (uuid * uuid) team_role;       (* (team_id, user_id) *)
  sprints : gmap uuid sprint_row;
  surveys : gmap uuid survey_row;
  survey_questions : list survey_question_row;
  survey_responses : gmap uuid survey_response_row;
  kudos : gmap uuid kudos_row;
  work_items : gmap uuid work_item_row;
  sprint_commitments : gmap uuid sprint_child_row;
  sprint_snapshots : gmap uuid sprint_child_row
}.

Definition empty_db : DB := {|
  accounts := ∅; account_members := ∅; teams := ∅; team_members := ∅;
  sprints := ∅; surveys := ∅; survey_questions := [];
  survey_responses := ∅; kudos := ∅; work_items := ∅;
  sprint_commitments := ∅; sprint_snapshots := ∅
|}.

(** ** The acting identity

    [auth.uid()] is the user of the request's token, or NULL for a request
    without a user; such a request runs as role anon, one with a user as
    role authenticated. *)
Definition actor := option uuid.

Definition auth_uid (a : actor) : option uuid := a.

Inductive pg_role := role_anon | role_authenticated.

Definition auth_role (a : actor) : pg_role :=
  match a with
  | Some _ => role_authenticated
  | None => role_anon
  end.

(** ** Row-level security

    Every table below has row-level security enabled.  A permissive policy
    names a command (or all), the roles it is for, a USING expression
    (checked on an existing row) and a WITH CHECK expression (checked on a
    new row; when absent the USING expression stands in for it).  The
    policies that apply to a command are OR-ed; with no applicable policy
    the row is refused.  An expression may also raise (a scalar subquery
    with several rows). *)

Inductive command := SELECT | INSERT | UPDATE | DELETE.

#[global] Instance command_eq_dec : EqDecision command.
Proof. solve_decision. Defined.
#[global] Instance pg_role_eq_dec : EqDecision pg_role.
Proof. solve_decision. Defined.

Inductive verdict := Pass | Reject | Raise (e : pg_error).

Definition of_bool (b : bool) : verdict := if b then Pass else Reject.

Definition is_pass (v : verdict) : bool :=
  match v with Pass => true | _ => false end.

Record policy (R : Type) := Policy {
  pol_name : string;
  pol_for : option command;            (* None: for all *)
  pol_to_authenticated : bool;         (* [to authenticated], else public *)
  pol_using : option (DB → actor → R → verdict);
  pol_with_check : option (DB → actor → R → verdict)
}.
Arguments Policy {R} _ _ _ _ _.
Arguments pol_name {R} _.
Arguments pol_for {R} _.
Arguments pol_to_authenticated {R} _.
Arguments pol_using {R} _.
Arguments pol_with_check {R} _.

Definition applies {R} (p : policy R) (a : actor) (c : command) : bool :=
  match pol_for p with
  | None => true
  | Some c' => bool_decide (c = c')
  end
  && (negb (pol_to_authenticated p)
      || bool_decide (auth_role a = role_authenticated)).

Definition check_expr {R} (p : policy R) : option (DB → actor → R → verdict) :=
  match pol_with_check p with
  | Some f => Some f
  | None => pol_using p
  end.

(** OR of the applicable expressions, left to right. *)
Fixpoint disjunction (vs : list verdict) : verdict :=
  match vs with
  | [] => Reject
  | Pass :: _ => Pass
  | Raise e :: _ => Raise e
  | Reject :: rest => disjunction rest
  end.

Definition conj (v1 v2 : verdict) : verdict :=
  match v1 with
  | Pass => v2
  | _ => v1
  end.

Definition row_using {R} (ps : list (policy R)) (db : DB) (a : actor)
    (c : command) (r : R) : verdict :=
  disjunction
    (omap (λ p, if applies p a c then (λ f, f db a r) <$> pol_using p
                else None) ps).

Definition row_check {R} (ps : list (policy R)) (db : DB) (a : actor)
    (c : command) (r : R) : verdict :=
  disjunction
    (omap (λ p, if applies p a c then (λ f, f db a r) <$> check_expr p
                else None) ps).

(** An intended operation on a row of a table. *)
Inductive operation (R : Type) :=
  | op_select (existing : R)
  | op_insert (new : R)
  | op_update (existing new : R)
  | op_delete (existing : R).
Arguments op_select {R} _.
Arguments op_insert {R} _.
Arguments op_update {R} _ _.
Arguments op_delete {R} _.

Definition permitted {R} (ps : list (policy R)) (db : DB) (a : actor)
    (op : operation R) : verdict :=
  match op with
  | op_select r => row_using ps db a SELECT r
  | op_insert n => row_check ps db a INSERT n
  | op_update o n => conj (row_using ps db a UPDATE o) (row_check ps db a UPDATE n)
  | op_delete o => row_using ps db a DELETE o
  end.

(** A statement with a WHERE or RETURNING clause reads the row, so the
    SELECT policies are applied as well. *)
Definition readable {R} (ps : list (policy R)) (db : DB) (a : actor) (r : R)
    : verdict := row_using ps db a SELECT r.

(** *** Security-definer helpers (they read their table past its policies) *)

(** public.is_account_member(p_account_id) *)
Definition is_account_member (db : DB) (a : actor) (p_account_id : uuid) : bool :=
  match auth_uid a with
  | Some u => bool_decide (is_Some (account_members db !! (p_account_id, u)))
  | None => false
  end.

(** public.is_team_member(p_team_id); a NULL team matches no row. *)
Definition is_team_member (db : DB) (a : actor) (p_team_id : option uuid) : bool :=
  match auth_uid a, p_team_id with
  | Some u, Some t => bool_decide (is_Some (team_members db !! (t, u)))
  | _, _ => false
  end.

(** *** SQL three-valued logic on nullable booleans *)

(** [x = y], NULL when either side is NULL *)
Definition sql_eq (x y : option bool) : option bool :=
  match x, y with
  | Some b1, Some b2 => Some (Bool.eqb b1 b2)
  | _, _ => None
  end.

(** [x is not distinct from y] *)
Definition is_not_distinct_from (x y : option bool) : bool :=
  match x, y with
  | Some b1, Some b2 => Bool.eqb b1 b2
  | None, None => true
  | _, _ => false
  end.

Definition sql_true (x : option bool) : bool :=
  match x with Some true => true | _ => false end.

(** A subquery used as an expression: NULL for no row, the value for one
    row, an error for more. *)
Definition scalar_subquery {A} (rows : list (option A)) : pg_result (option A) :=
  match rows with
  | [] => Ok None
  | [v] => Ok v
  | _ => Err cardinality_violation
  end.

(** *** accounts *)

(** The WITH CHECK clause of the policy Update own accounts:
    (is_test_tenant = true) OR
    (is_test_tenant is not distinct from
       (select is_test_tenant from public.accounts where id = id)).
    Inside the subquery both [id]s are the subquery's own column, so its
    filter keeps every account the actor can read (the subquery runs
    under the SELECT policy of accounts).  The second operand is
    evaluated only when the first is not true. *)
Definition update_own_accounts_check (db : DB) (a : actor)
    (r : uuid * account_row) : verdict :=
  if sql_true (sql_eq (accounts_is_test_tenant r.2) (Some true)) then Pass
  else
    match scalar_subquery
            (accounts_is_test_tenant <$>
               (filter (λ kv, is_account_member db a kv.1 = true)
                       (map_to_list (accounts db))).*2) with
    | Err e => Raise e
    | Ok v => of_bool (is_not_distinct_from (accounts_is_test_tenant r.2) v)
    end.

Definition accounts_policies : list (policy (uuid * account_row)) := [
  Policy "View own accounts" (Some SELECT) false
    (Some (λ db a r, of_bool (is_account_member db a r.1))) None;
  Policy "Create accounts" (Some INSERT) false
    None
    (Some (λ db a r, of_bool (bool_decide (auth_role a = role_authenticated))));
  Policy "Update own accounts" (Some UPDATE) false
    (Some (λ db a r, of_bool (is_account_member db a r.1)))
    (Some update_own_accounts_check)
].

(** *** account_members *)

Definition account_members_policies
  : list (policy ((uuid * uuid) * account_role)) := [
  Policy "View account members" (Some SELECT) false
    (Some (λ db a r, of_bool (is_account_member db a r.1.1))) None;
  Policy "Join accounts" (Some INSERT) false
    None
    (Some (λ db a r, of_bool (bool_decide (auth_uid a = Some r.1.2))))
].

(** A read of one account_members row by primary key, as the actor. *)
Definition select_account_member (db : DB) (a : actor) (acc usr : uuid)
    : option account_role :=
  r ← account_members db !! (acc, usr);
  if is_pass (readable account_members_policies db a ((acc, usr), r))
  then Some r else None.

(** *** teams *)

Definition teams_policies : list (policy (uuid * team_row)) := [
  Policy "View teams in account" (Some SELECT) true
    (Some (λ db a r, of_bool (is_account_member db a (teams_account_id r.2))))
    None;
  Policy "Create teams (Admin/Owner)" (Some INSERT) true
    None
    (Some (λ db a r,
       of_bool
         match auth_uid a with
         | Some u =>
             match select_account_member db a (teams_account_id r.2) u with
             | Some owner | Some admin => true
             | _ => false
             end
         | None => false
         end))
].

Definition select_team (db : DB) (a : actor) (id : uuid) : option team_row :=
  t ← teams db !! id;
  if is_pass (readable teams_policies db a (id, t)) then Some t else None.

(** *** team_members *)

Definition team_members_policies : list (policy ((uuid * uuid) * team_role)) := [
  Policy "View team members" (Some SELECT) true
    (Some (λ db a r,
       of_bool
         match select_team db a r.1.1 with
         | Some t => is_account_member db a (teams_account_id t)
         | None => false
         end))
    None
].

Definition select_team_member (db : DB) (a : actor) (team usr : uuid)
    : option team_role :=
  r ← team_members db !! (team, usr);
  if is_pass (readable team_members_policies db a ((team, usr), r))
  then Some r else None.

(** exists (select 1 from team_members tm where tm.team_id = T
            and tm.user_id = auth.uid() and tm.role = 'lead') *)
Definition exists_lead_membership (db : DB) (a : actor) (team : option uuid)
    : bool :=
  match auth_uid a, team with
  | Some u, Some t =>
      bool_decide (select_team_member db a t u = Some lead)
  | _, _ => false
  end.

(** *** sprints and work_items *)

Definition sprints_policies : list (policy (uuid * sprint_row)) := [
  Policy "Tenant Isolation: Sprints" None false
    (Some (λ db a r, of_bool (is_account_member db a (sprints_account_id r.2))))
    (Some (λ db a r, of_bool (is_account_member db a (sprints_account_id r.2))))
].

Definition work_items_policies : list (policy (uuid * work_item_row)) := [
  Policy "Tenant Isolation: Work Items" None false
    (Some (λ db a r, of_bool (is_account_member db a (wi_account_id r.2))))
    (Some (λ db a r, of_bool (is_account_member db a (wi_account_id r.2))))
].

(** *** surveys and survey_questions

    The two policies of survey_questions read one column of the row,
    survey_id; they are stated on that column. *)

Definition surveys_policies : list (policy (uuid * survey_row)) := [
  Policy "View surveys" (Some SELECT) true
    (Some (λ db a r,
       of_bool
         (match surveys_team_id r.2 with None => true | Some _ => false end
          && sql_true (sql_eq (surveys_is_system_template r.2) (Some true))
          || is_team_member db a (surveys_team_id r.2))))
    None;
  Policy "Manage surveys" None true
    (Some (λ db a r, of_bool (exists_lead_membership db a (surveys_team_id r.2))))
    None
].

Definition select_survey (db : DB) (a : actor) (id : uuid) : option survey_row :=
  s ← surveys db !! id;
  if is_pass (readable surveys_policies db a (id, s)) then Some s else None.

Definition survey_questions_policies : list (policy (option uuid)) := [
  Policy "View questions" (Some SELECT) true
    (Some (λ db a survey_id,
       of_bool
         match survey_id with
         | Some sid => bool_decide (is_Some (select_survey db a sid))
         | None => false
         end))
    None;
  Policy "Manage questions" None true
    (Some (λ db a survey_id,
       of_bool
         match survey_id with
         | Some sid =>
             match select_survey db a sid with
             | Some s => exists_lead_membership db a (surveys_team_id s)
             | None => false
             end
         | None => false
         end))
    None
].

(** ** Triggers *)

(** public.handle_work_item_completion(), before update on work_items *)
Definition handle_work_item_completion (now : timestamptz)
    (old new : work_item_row) : work_item_row :=
  if bool_decide (wi_status new = done) && negb (bool_decide (wi_status old = done))
  then {| wi_team_id := wi_team_id new; wi_account_id := wi_account_id new;
          wi_sprint_id := wi_sprint_id new; wi_title := wi_title new;
          wi_status := wi_status new; wi_completed_at := Some now;
          wi_updated_at := wi_updated_at new |}
  else if negb (bool_decide (wi_status new = done)) && bool_decide (wi_status old = done)
  then {| wi_team_id := wi_team_id new; wi_account_id := wi_account_id new;
          wi_sprint_id := wi_sprint_id new; wi_title := wi_title new;
          wi_status := wi_status new; wi_completed_at := None;
          wi_updated_at := wi_updated_at new |}
  else new.

(** public.set_updated_at(), before update on work_items *)
Definition work_item_set_updated_at (now : timestamptz) (new : work_item_row)
    : work_item_row :=
  {| wi_team_id := wi_team_id new; wi_account_id := wi_account_id new;
     wi_sprint_id := wi_sprint_id new; wi_title := wi_title new;
     wi_status := wi_status new; wi_completed_at := wi_completed_at new;
     wi_updated_at := now |}.

(** public.set_updated_at(), before update on sprints *)
Definition sprint_set_updated_at (now : timestamptz) (new : sprint_row)
    : sprint_row :=
  {| sprints_team_id := sprints_team_id new;
     sprints_account_id := sprints_account_id new;
     sprints_name := sprints_name new; sprints_goal := sprints_goal new;
     sprints_start_date := sprints_start_date new;
     sprints_end_date := sprints_end_date new;
     sprints_status := sprints_status new; sprints_updated_at := now |}.

(** ** Table replacement in a database state *)

Definition with_accounts (db : DB) (m : gmap uuid account_row) : DB :=
  {| accounts := m; account_members := account_members db; teams := teams db;
     team_members := team_members db; sprints := sprints db;
     surveys := surveys db; survey_questions := survey_questions db;
     survey_responses := survey_responses db; kudos := kudos db;
     work_items := work_items db;
     sprint_commitments := sprint_commitments db;
     sprint_snapshots := sprint_snapshots db |}.

Definition with_teams (db : DB) (m : gmap uuid team_row) : DB :=
  {| accounts := accounts db; account_members := account_members db; teams := m;
     team_members := team_members db; sprints := sprints db;
     surveys := surveys db; survey_questions := survey_questions db;
     survey_responses := survey_responses db; kudos := kudos db;
     work_items := work_items db;
     sprint_commitments := sprint_commitments db;
     sprint_snapshots := sprint_snapshots db |}.

Definition with_team_members (db : DB) (m : gmap (uuid * uuid) team_role) : DB :=
  {| accounts := accounts db; account_members := account_members db;
     teams := teams db; team_members := m; sprints := sprints db;
     surveys := surveys db; survey_questions := survey_questions db;
     survey_responses := survey_responses db; kudos := kudos db;
     work_items := work_items db;
     sprint_commitments := sprint_commitments db;
     sprint_snapshots := sprint_snapshots db |}.

Definition with_sprints (db : DB) (m : gmap uuid sprint_row) : DB :=
  {| accounts := accounts db; account_members := account_members db;
     teams := teams db; team_members := team_members db; sprints := m;
     surveys := surveys db; survey_questions := survey_questions db;
     survey_responses := survey_responses db; kudos := kudos db;
     work_items := work_items db;
     sprint_commitments := sprint_commitments db;
     sprint_snapshots := sprint_snapshots db |}.

Definition with_surveys (db : DB) (m : gmap uuid survey_row) : DB :=
  {| accounts := accounts db; account_members := account_members db;
     teams := teams db; team_members := team_members db; sprints := sprints db;
     surveys := m; survey_questions := survey_questions db;
     survey_responses := survey_responses db; kudos := kudos db;
     work_items := work_items db;
     sprint_commitments := sprint_commitments db;
     sprint_snapshots := sprint_snapshots db |}.

Definition with_survey_questions (db : DB) (l : list survey_question_row) : DB :=
  {| accounts := accounts db; account_members := account_members db;
     teams := teams db; team_members := team_members db; sprints := sprints db;
     surveys := surveys db; survey_questions := l;
     survey_responses := survey_responses db; kudos := kudos db;
     work_items := work_items db;
     sprint_commitments := sprint_commitments db;
     sprint_snapshots := sprint_snapshots db |}.

Definition with_survey_responses (db : DB) (m : gmap uuid survey_response_row) : DB :=
  {| accounts := accounts db; account_members := account_members db;
     teams := teams db; team_members := team_members db; sprints := sprints db;
     surveys := surveys db; survey_questions := survey_questions db;
     survey_responses := m; kudos := kudos db;
     work_items := work_items db;
     sprint_commitments := sprint_commitments db;
     sprint_snapshots := sprint_snapshots db |}.

Definition with_work_items (db : DB) (m : gmap uuid work_item_row) : DB :=
  {| accounts := accounts db; account_members := account_members db;
     teams := teams db; team_members := team_members db; sprints := sprints db;
     surveys := surveys db; survey_questions := survey_questions db;
     survey_responses := survey_responses db; kudos := kudos db;
     work_items := m;
     sprint_commitments := sprint_commitments db;
     sprint_snapshots := sprint_snapshots db |}.

Definition with_sprint_children (db : DB) (c s : gmap uuid sprint_child_row) : DB :=
  {| accounts := accounts db; account_members := account_members db;
     teams := teams db; team_members := team_members db; sprints := sprints db;
     surveys := surveys db; survey_questions := survey_questions db;
     survey_responses := survey_responses db; kudos := kudos db;
     work_items := work_items db;
     sprint_commitments := c; sprint_snapshots := s |}.

(** The outcome of the policy check of a new row: a refusal is the error
    of the table, a raised error is passed on. *)
Definition new_row_verdict (table : string) (v : verdict) : option pg_error :=
  match v with
  | Pass => None
  | Reject => Some (insufficient_privilege table)
  | Raise e => Some e
  end.

(** ** Statements on accounts *)

(** The SET list of an UPDATE on accounts. *)
Record account_patch := {
  set_accounts_name : option string;
  set_accounts_is_test_tenant : option (option bool)
}.

Definition apply_account_patch (old : account_row) (p : account_patch)
    : account_row :=
  {| accounts_name := default (accounts_name old) (set_accounts_name p);
     accounts_slug := accounts_slug old;
     accounts_is_test_tenant :=
       default (accounts_is_test_tenant old) (set_accounts_is_test_tenant p);
     accounts_owner_user_id := accounts_owner_user_id old;
     accounts_updated_at := accounts_updated_at old |}.

(** public.set_updated_at(), before update on accounts *)
Definition account_set_updated_at (now : timestamptz) (new : account_row)
    : account_row :=
  {| accounts_name := accounts_name new; accounts_slug := accounts_slug new;
     accounts_is_test_tenant := accounts_is_test_tenant new;
     accounts_owner_user_id := accounts_owner_user_id new;
     accounts_updated_at := now |}.

(** update accounts set ... where id = [id].  The result is the number of
    rows updated; a row the actor may not read or update is skipped. *)
Definition update_account (db : DB) (a : actor) (now : timestamptz)
    (id : uuid) (p : account_patch) : pg_result nat * DB :=
  match accounts db !! id with
  | None => (Ok 0, db)
  | Some old =>
      match conj (readable accounts_policies db a (id, old))
                 (row_using accounts_policies db a UPDATE (id, old)) with
      | Raise e => (Err e, db)
      | Reject => (Ok 0, db)
      | Pass =>
          let new := account_set_updated_at now (apply_account_patch old p) in
          match new_row_verdict "accounts"
                  (conj (row_check accounts_policies db a UPDATE (id, new))
                        (readable accounts_policies db a (id, new))) with
          | Some e => (Err e, db)
          | None => (Ok 1, with_accounts db (<[id := new]> (accounts db)))
          end
      end
  end.

(** ** Statements on work_items *)

(** The SET list of an UPDATE on work_items: every column a caller can
    name, completed_at included. *)
Record work_item_patch := {
  set_wi_sprint_id : option (option uuid);
  set_wi_title : option string;
  set_wi_status : option work_item_status;
  set_wi_completed_at : option (option timestamptz)
}.

Definition apply_work_item_patch (old : work_item_row) (p : work_item_patch)
    : work_item_row :=
  {| wi_team_id := wi_team_id old; wi_account_id := wi_account_id old;
     wi_sprint_id := default (wi_sprint_id old) (set_wi_sprint_id p);
     wi_title := default (wi_title old) (set_wi_title p);
     wi_status := default (wi_status old) (set_wi_status p);
     wi_completed_at := default (wi_completed_at old) (set_wi_completed_at p);
     wi_updated_at := wi_updated_at old |}.

(** The row the before-update triggers hand to the table:
    handle_updated_at fires first, set_completion_timestamp second
    (triggers of one event fire in name order). *)
Definition work_item_before_update (now : timestamptz) (old : work_item_row)
    (p : work_item_patch) : work_item_row :=
  handle_work_item_completion now old
    (work_item_set_updated_at now (apply_work_item_patch old p)).

(** update work_items set ... where id = [id] *)
Definition update_work_item (db : DB) (a : actor) (now : timestamptz)
    (id : uuid) (p : work_item_patch) : pg_result nat * DB :=
  match work_items db !! id with
  | None => (Ok 0, db)
  | Some old =>
      match conj (readable work_items_policies db a (id, old))
                 (row_using work_items_policies db a UPDATE (id, old)) with
      | Raise e => (Err e, db)
      | Reject => (Ok 0, db)
      | Pass =>
          let new := work_item_before_update now old p in
          match new_row_verdict "work_items"
                  (conj (row_check work_items_policies db a UPDATE (id, new))
                        (readable work_items_policies db a (id, new))) with
          | Some e => (Err e, db)
          | None =>
              match wi_sprint_id new with
              | Some s =>
                  if bool_decide (is_Some (sprints db !! s))
                  then (Ok 1, with_work_items db (<[id := new]> (work_items db)))
                  else (Err (foreign_key_violation "work_items"
                               "work_items_sprint_id_fkey"), db)
              | None =>
                  (Ok 1, with_work_items db (<[id := new]> (work_items db)))
              end
          end
      end
  end.

(** insert into work_items ...: no trigger fires on insert, the row is
    stored with the status and completed_at it was given. *)
Definition insert_work_item (db : DB) (a : actor) (id : uuid)
    (r : work_item_row) : pg_result unit * DB :=
  match new_row_verdict "work_items"
          (row_check work_items_policies db a INSERT (id, r)) with
  | Some e => (Err e, db)
  | None =>
      if bool_decide (is_Some (work_items db !! id))
      then (Err (unique_violation "work_items_pkey"), db)
      else if negb (bool_decide (is_Some (teams db !! wi_team_id r)))
      then (Err (foreign_key_violation "work_items" "work_items_team_id_fkey"), db)
      else if negb (bool_decide (is_Some (accounts db !! wi_account_id r)))
      then (Err (foreign_key_violation "work_items" "work_items_account_id_fkey"), db)
      else if match wi_sprint_id r with
              | Some s => negb (bool_decide (is_Some (sprints db !! s)))
              | None => false
              end
      then (Err (foreign_key_violation "work_items" "work_items_sprint_id_fkey"), db)
      else (Ok (), with_work_items db (<[id := r]> (work_items db)))
  end.

(** ** Sprints: schemas, statements, routes *)

(** The JSON body of POST /sprints once its field shapes are parsed
    (SprintSchema without id, created_at, updated_at). *)
Record CreateSprintInput := {
  cs_team_id : uuid;
  cs_name : string;
  cs_start_date : string;
  cs_end_date : string;
  cs_goal : option string;
  cs_status : sprint_status
}.

(** JavaScript [a >= b] on two strings compares them by code unit. *)
Definition js_string_geb (a b : string) : bool := String.leb b a.

(** CreateSprintSchema: the field checks of SprintSchema and the
    refinement [data.end_date >= data.start_date]. *)
Definition CreateSprintSchema (b : CreateSprintInput) : bool :=
  negb (String.eqb (cs_name b) "")
  && DateString (cs_start_date b) && DateString (cs_end_date b)
  && js_string_geb (cs_end_date b) (cs_start_date b).

(** The JSON body of PATCH /sprints/:id; every field may be absent. *)
Record UpdateSprintInput := {
  us_name : option string;
  us_start_date : option string;
  us_end_date : option string;
  us_goal : option (option string);
  us_status : option sprint_status
}.

(** UpdateSprintSchema: partial pick of SprintSchema, with the refinement
    that compares the two dates only when both are present. *)
Definition UpdateSprintSchema (b : UpdateSprintInput) : bool :=
  match us_name b with Some n => negb (String.eqb n "") | None => true end
  && match us_start_date b with Some s => DateString s | None => true end
  && match us_end_date b with Some s => DateString s | None => true end
  && match us_start_date b, us_end_date b with
     | Some s, Some e => js_string_geb e s
     | _, _ => true
     end.

(** constraint valid_dates check (end_date >= start_date) *)
Definition valid_dates (r : sprint_row) : bool :=
  date_geb (sprints_end_date r) (sprints_start_date r).

(** insert into sprints (...) values (...) returning * *)
Definition insert_sprint (db : DB) (a : actor) (id : uuid) (r : sprint_row)
    : pg_result (uuid * sprint_row) * DB :=
  match new_row_verdict "sprints"
          (conj (row_check sprints_policies db a INSERT (id, r))
                (readable sprints_policies db a (id, r))) with
  | Some e => (Err e, db)
  | None =>
      if negb (valid_dates r)
      then (Err (check_violation "sprints" "valid_dates"), db)
      else if bool_decide (is_Some (sprints db !! id))
      then (Err (unique_violation "sprints_pkey"), db)
      else if negb (bool_decide (is_Some (teams db !! sprints_team_id r)))
      then (Err (foreign_key_violation "sprints" "sprints_team_id_fkey"), db)
      else if negb (bool_decide (is_Some (accounts db !! sprints_account_id r)))
      then (Err (foreign_key_violation "sprints" "sprints_account_id_fkey"), db)
      else (Ok (id, r), with_sprints db (<[id := r]> (sprints db)))
  end.

(** The SET list of an UPDATE on sprints, its dates already converted. *)
Record sprint_patch := {
  set_sprints_name : option string;
  set_sprints_start_date : option date;
  set_sprints_end_date : option date;
  set_sprints_goal : option (option string);
  set_sprints_status : option sprint_status
}.

Definition apply_sprint_patch (old : sprint_row) (p : sprint_patch) : sprint_row :=
  {| sprints_team_id := sprints_team_id old;
     sprints_account_id := sprints_account_id old;
     sprints_name := default (sprints_name old) (set_sprints_name p);
     sprints_goal := default (sprints_goal old) (set_sprints_goal p);
     sprints_start_date := default (sprints_start_date old) (set_sprints_start_date p);
     sprints_end_date := default (sprints_end_date old) (set_sprints_end_date p);
     sprints_status := default (sprints_status old) (set_sprints_status p);
     sprints_updated_at := sprints_updated_at old |}.

(** update sprints set ... where id = [id] returning *, read with
    .single(): no row updated is the error PGRST116. *)
Definition update_sprint (db : DB) (a : actor) (now : timestamptz) (id : uuid)
    (p : sprint_patch) : pg_result (uuid * sprint_row) * DB :=
  match sprints db !! id with
  | None => (Err no_rows, db)
  | Some old =>
      match conj (readable sprints_policies db a (id, old))
                 (row_using sprints_policies db a UPDATE (id, old)) with
      | Raise e => (Err e, db)
      | Reject => (Err no_rows, db)
      | Pass =>
          let new := sprint_set_updated_at now (apply_sprint_patch old p) in
          match new_row_verdict "sprints"
                  (conj (row_check sprints_policies db a UPDATE (id, new))
                        (readable sprints_policies db a (id, new))) with
          | Some e => (Err e, db)
          | None =>
              if negb (valid_dates new)
              then (Err (check_violation "sprints" "valid_dates"), db)
              else (Ok (id, new), with_sprints db (<[id := new]> (sprints db)))
          end
      end
  end.

(** work_items.sprint_id ... on delete set null: the referential action
    is an UPDATE of the referencing rows, so their before-update triggers
    fire. *)
Definition work_item_set_null (now : timestamptz) (id : uuid)
    (w : work_item_row) : work_item_row :=
  if bool_decide (wi_sprint_id w = Some id)
  then work_item_before_update now w
         {| set_wi_sprint_id := Some None; set_wi_title := None;
            set_wi_status := None; set_wi_completed_at := None |}
  else w.

(** delete from sprints where id = [id], with the referential action of
    every foreign key that points at sprints:
    - kudos.sprint_id: no action given, so the delete is refused while a
      kudos row references the sprint;
    - work_items.sprint_id: on delete set null;
    - survey_responses, sprint_commitments, sprint_snapshots: on delete
      cascade.
    The result is the number of sprints deleted. *)
Definition delete_sprint (db : DB) (a : actor) (now : timestamptz) (id : uuid)
    : pg_result nat * DB :=
  match sprints db !! id with
  | None => (Ok 0, db)
  | Some old =>
      match conj (readable sprints_policies db a (id, old))
                 (row_using sprints_policies db a DELETE (id, old)) with
      | Raise e => (Err e, db)
      | Reject => (Ok 0, db)
      | Pass =>
          if bool_decide (map_Exists (λ _ k, kudos_sprint_id k = Some id) (kudos db))
          then (Err (foreign_key_violation "sprints" "kudos_sprint_id_fkey"), db)
          else
            let db1 := with_sprints db (delete id (sprints db)) in
            let db2 := with_work_items db1
                         (work_item_set_null now id <$> work_items db1) in
            let db3 := with_survey_responses db2
                         (filter (λ kv, sr_sprint_id kv.2 ≠ Some id)
                                 (survey_responses db2)) in
            (Ok 1,
             with_sprint_children db3
               (filter (λ kv, sc_sprint_id kv.2 ≠ id) (sprint_commitments db3))
               (filter (λ kv, sc_sprint_id kv.2 ≠ id) (sprint_snapshots db3)))
      end
  end.

(** *** Route handlers of routes/sprints.ts *)

Inductive sprint_response :=
  | sprint_json (status : nat) (row : uuid * sprint_row)
  | sprint_error (status : nat) (error : string)
  | sprint_message (status : nat) (message : string)
  | sprint_invalid.          (* 400 from zValidator, with the Zod issues *)

(** POST / : validate, resolve the team's account, insert. *)
Definition post_sprint (db : DB) (a : actor) (now : timestamptz) (new_id : uuid)
    (body : CreateSprintInput) : sprint_response * DB :=
  if negb (CreateSprintSchema body) then (sprint_invalid, db)
  else
    match select_team db a (cs_team_id body) with
    | None => (sprint_error 404 "Team not found", db)
    | Some team =>
        match date_in (cs_start_date body), date_in (cs_end_date body) with
        | Some s, Some e =>
            match insert_sprint db a new_id
                    {| sprints_team_id := cs_team_id body;
                       sprints_account_id := teams_account_id team;
                       sprints_name := cs_name body;
                       sprints_goal := cs_goal body;
                       sprints_start_date := s; sprints_end_date := e;
                       sprints_status := cs_status body;
                       sprints_updated_at := now |} with
            | (Ok row, db') => (sprint_json 201 row, db')
            | (Err err, db') => (sprint_error 500 (error_message err), db')
            end
        | None, _ =>
            (sprint_error 500
               (error_message (datetime_field_overflow (cs_start_date body))), db)
        | _, None =>
            (sprint_error 500
               (error_message (datetime_field_overflow (cs_end_date body))), db)
        end
    end.

(** The conversion of a date text of the body for the SET list. *)
Definition date_field (o : option string) : pg_result (option date) :=
  match o with
  | None => Ok None
  | Some s =>
      match date_in s with
      | Some d => Ok (Some d)
      | None => Err (datetime_field_overflow s)
      end
  end.

Definition sprint_patch_of_body (b : UpdateSprintInput) : pg_result sprint_patch :=
  match date_field (us_start_date b) with
  | Err e => Err e
  | Ok sd =>
      match date_field (us_end_date b) with
      | Err e => Err e
      | Ok ed =>
          Ok {| set_sprints_name := us_name b;
                set_sprints_start_date := sd;
                set_sprints_end_date := ed;
                set_sprints_goal := us_goal b;
                set_sprints_status := us_status b |}
      end
  end.

(** PATCH /:id *)
Definition patch_sprint (db : DB) (a : actor) (now : timestamptz) (id : uuid)
    (body : UpdateSprintInput) : sprint_response * DB :=
  if negb (UpdateSprintSchema body) then (sprint_invalid, db)
  else
    match sprint_patch_of_body body with
    | Err err => (sprint_error 500 (error_message err), db)
    | Ok p =>
        match update_sprint db a now id p with
        | (Ok row, db') => (sprint_json 200 row, db')
        | (Err err, db') => (sprint_error 500 (error_message err), db')
        end
    end.

(** DELETE /:id *)
Definition delete_sprint_route (db : DB) (a : actor) (now : timestamptz)
    (id : uuid) : sprint_response * DB :=
  match delete_sprint db a now id with
  | (Err err, db') =>
      if String.eqb (error_code err) "23503"
      then (sprint_error 409
              "Cannot delete sprint: it still has associated work items. Remove them first.",
            db')
      else (sprint_error 500 (error_message err), db')
  | (Ok _, db') => (sprint_message 200 "Sprint deleted", db')
  end.

(** ** Surveys *)

(** One element of CreateSurveySchema.questions after validation
    (is_required defaults to true). *)
Record QuestionInput := {
  qi_question_text : string;
  qi_question_type : QuestionTypeEnum;
  qi_order_index : Z;
  qi_is_required : bool
}.

(** CreateSurveySchema, validated (is_active defaults to true). *)
Record CreateSurveyInput := {
  csv_account_id : uuid;
  csv_team_id : option uuid;
  csv_title : string;
  csv_is_active : bool;
  csv_questions : list QuestionInput
}.

(** One record of jsonb_to_recordset(p_questions): a key that is absent
    or null in the JSON element is NULL. *)
Record question_record := {
  x_question_text : option string;
  x_question_type : option string;
  x_order_index : option Z;
  x_is_required : option bool
}.

(** The JSON the route sends as p_questions. *)
Definition question_to_json (q : QuestionInput) : question_record :=
  {| x_question_text := Some (qi_question_text q);
     x_question_type := Some (question_type_text (qi_question_type q));
     x_order_index := Some (qi_order_index q);
     x_is_required := Some (qi_is_required q) |}.

(** check (response_type in ('scale_1_5','text','single_select','emoji_mood')) *)
Definition response_type_check (t : string) : bool :=
  String.eqb t "scale_1_5" || String.eqb t "text"
  || String.eqb t "single_select" || String.eqb t "emoji_mood".

(** The column values of one new survey_questions row, before the
    not-null and check constraints are applied. *)
Record question_values := {
  v_survey_id : option uuid;
  v_question_text : option string;
  v_response_type : option string;
  v_order_index : option Z;
  v_is_required : option bool
}.

(** Constraints of survey_questions on one new row. *)
Definition check_question (db : DB) (v : question_values)
    : pg_result survey_question_row :=
  match v_question_text v with
  | None => Err (not_null_violation "survey_questions" "question_text")
  | Some txt =>
      match v_response_type v with
      | None => Err (not_null_violation "survey_questions" "response_type")
      | Some rt =>
          match v_order_index v with
          | None => Err (not_null_violation "survey_questions" "order_index")
          | Some oi =>
              if negb (response_type_check rt)
              then Err (check_violation "survey_questions"
                          "survey_questions_response_type_check")
              else if match v_survey_id v with
                      | Some sid => negb (bool_decide (is_Some (surveys db !! sid)))
                      | None => false
                      end
              then Err (foreign_key_violation "survey_questions"
                          "survey_questions_survey_id_fkey")
              else Ok {| sq_survey_id := v_survey_id v; sq_question_text := txt;
                         sq_response_type := rt; sq_order_index := oi;
                         sq_is_required := v_is_required v |}
          end
      end
  end.

(** The rows of one INSERT, added one after the other; [guard] is the
    policy check of a new row (none inside a security-definer function).
    The first row that is refused or breaks a constraint stops the
    statement with the rows before it already written (the surrounding
    transaction then undoes them).  The result is the rows written. *)
Fixpoint insert_question_rows (guard : DB → question_values → option pg_error)
    (db : DB) (vs : list question_values)
    : pg_result (list survey_question_row) * DB :=
  match vs with
  | [] => (Ok [], db)
  | v :: rest =>
      match guard db v with
      | Some e => (Err e, db)
      | None =>
          match check_question db v with
          | Err e => (Err e, db)
          | Ok row =>
              match insert_question_rows guard
                      (with_survey_questions db (survey_questions db ++ [row]))
                      rest with
              | (Ok rows, db') => (Ok (row :: rows), db')
              | (Err e, db') => (Err e, db')
              end
          end
      end
  end.

Definition no_guard (db : DB) (v : question_values) : option pg_error := None.

(** Constraints of surveys on one new row. *)
Definition insert_survey_row (db : DB) (id : uuid) (r : survey_row)
    : pg_result unit * DB :=
  if bool_decide (is_Some (surveys db !! id))
  then (Err (unique_violation "surveys_pkey"), db)
  else if negb (bool_decide (is_Some (accounts db !! surveys_account_id r)))
  then (Err (foreign_key_violation "surveys" "surveys_account_id_fkey"), db)
  else if match surveys_team_id r with
          | Some t => negb (bool_decide (is_Some (teams db !! t)))
          | None => false
          end
  then (Err (foreign_key_violation "surveys" "surveys_team_id_fkey"), db)
  else (Ok (), with_surveys db (<[id := r]> (surveys db))).

(** *** Transactions

    The body of a function runs statement after statement on the state;
    an error stops it.  The transaction around a call keeps the final
    state of a body that returns and the initial state of one that
    raises. *)

Definition tx (A : Type) : Type := DB → pg_result A * DB.

#[global] Instance tx_ret : MRet tx := λ A x db, (Ok x, db).

#[global] Instance tx_bind : MBind tx := λ A B k m db,
  match m db with
  | (Ok x, db') => k x db'
  | (Err e, db') => (Err e, db')
  end.

Definition tx_raise {A} (e : pg_error) : tx A := λ db, (Err e, db).

Definition tx_get : tx DB := λ db, (Ok db, db).

Definition run_transaction {A} (m : tx A) (db : DB) : pg_result A * DB :=
  match m db with
  | (Ok x, db') => (Ok x, db')
  | (Err e, _) => (Err e, db)
  end.

(** The jsonb the function returns. *)
Record survey_with_questions := {
  ret_id : uuid;
  ret_account_id : uuid;
  ret_title : string;
  ret_questions : list survey_question_row
}.

(** jsonb_agg(sq order by sq.order_index) ... where sq.survey_id = id *)
Definition by_order_index (q1 q2 : survey_question_row) : Prop :=
  (sq_order_index q1 ≤ sq_order_index q2)%Z.

#[global] Instance by_order_index_dec q1 q2 : Decision (by_order_index q1 q2).
Proof. unfold by_order_index. apply _. Defined.

Definition questions_of (db : DB) (id : uuid) : list survey_question_row :=
  merge_sort by_order_index
    (filter (λ q, sq_survey_id q = Some id) (survey_questions db)).

(** The row of insert into surveys (account_id, team_id, title,
    is_active): is_system_template takes its default, false.  (The
    is_active column is written by both creation paths and declared by
    SurveySchema; the migration that adds it is not among the sources.) *)
Definition survey_values (p_account_id : uuid) (p_team_id : option uuid)
    (p_title : string) (p_is_active : bool) : survey_row :=
  {| surveys_team_id := p_team_id; surveys_title := p_title;
     surveys_is_system_template := Some false;
     surveys_account_id := p_account_id;
     surveys_is_active := p_is_active |}.

(** The select list of the bulk insert: v_survey_id, x.question_text,
    x.question_type (written to response_type), x.order_index,
    coalesce(x.is_required, true). *)
Definition question_select_list (new_id : uuid) (x : question_record)
    : question_values :=
  {| v_survey_id := Some new_id;
     v_question_text := x_question_text x;
     v_response_type := x_question_type x;
     v_order_index := x_order_index x;
     v_is_required := Some (default true (x_is_required x)) |}.

(** The body of public.create_survey_with_questions.  It is security
    definer: its statements are not subject to row-level security, and
    the only authorization is its own account-membership check.
    [new_id] is the gen_random_uuid() default of surveys.id. *)
Definition create_survey_with_questions_body (a : actor) (new_id : uuid)
    (p_account_id : uuid) (p_team_id : option uuid) (p_title : string)
    (p_is_active : bool) (p_questions : list question_record)
    : tx survey_with_questions :=
  db ← tx_get;
  (if negb (is_account_member db a p_account_id)
   then tx_raise (raise_exception
                    "Access Denied: User is not a member of this account")
   else mret ());;
  ((λ db, insert_survey_row db new_id
            (survey_values p_account_id p_team_id p_title p_is_active))
    : tx unit);;
  ((λ db, insert_question_rows no_guard db
            (question_select_list new_id <$> p_questions))
    : tx (list survey_question_row));;
  db ← tx_get;
  mret {| ret_id := new_id; ret_account_id := p_account_id;
          ret_title := p_title; ret_questions := questions_of db new_id |}.

(** supabase.rpc('create_survey_with_questions', ...): one call, one
    transaction. *)
Definition create_survey_with_questions (db : DB) (a : actor) (new_id : uuid)
    (p_account_id : uuid) (p_team_id : option uuid) (p_title : string)
    (p_is_active : bool) (p_questions : list question_record)
    : pg_result survey_with_questions * DB :=
  run_transaction
    (create_survey_with_questions_body a new_id p_account_id p_team_id
       p_title p_is_active p_questions) db.

(** *** Statements of the two-step path, run as the caller *)

(** supabase.from('surveys').insert({...}).select().single() *)
Definition insert_survey (db : DB) (a : actor) (id : uuid) (r : survey_row)
    : pg_result (uuid * survey_row) * DB :=
  match new_row_verdict "surveys"
          (conj (row_check surveys_policies db a INSERT (id, r))
                (readable surveys_policies db a (id, r))) with
  | Some e => (Err e, db)
  | None =>
      match insert_survey_row db id r with
      | (Ok _, db') => (Ok (id, r), db')
      | (Err e, _) => (Err e, db)
      end
  end.

(** The policy check of a new survey_questions row written by the caller
    with a RETURNING clause. *)
Definition question_guard (a : actor) (db : DB) (v : question_values)
    : option pg_error :=
  new_row_verdict "survey_questions"
    (conj (row_check survey_questions_policies db a INSERT (v_survey_id v))
          (readable survey_questions_policies db a (v_survey_id v))).

(** supabase.from('survey_questions').insert(rows).select() *)
Definition insert_questions (db : DB) (a : actor) (vs : list question_values)
    : pg_result (list survey_question_row) * DB :=
  run_transaction (λ db, insert_question_rows (question_guard a) db vs) db.

(** supabase.from('surveys').delete().eq('id', id); survey_questions and
    survey_responses reference surveys on delete cascade. *)
Definition delete_survey (db : DB) (a : actor) (id : uuid) : pg_result nat * DB :=
  match surveys db !! id with
  | None => (Ok 0, db)
  | Some old =>
      match conj (readable surveys_policies db a (id, old))
                 (row_using surveys_policies db a DELETE (id, old)) with
      | Raise e => (Err e, db)
      | Reject => (Ok 0, db)
      | Pass =>
          let db1 := with_surveys db (delete id (surveys db)) in
          let db2 := with_survey_questions db1
                       (filter (λ q, sq_survey_id q ≠ Some id)
                               (survey_questions db1)) in
          (Ok 1,
           with_survey_responses db2
             (filter (λ kv, sr_survey_id kv.2 ≠ Some id) (survey_responses db2)))
      end
  end.

(** *** Route handlers of routes/surveys.ts *)

Inductive survey_response :=
  | survey_rpc_json (status : nat) (data : survey_with_questions)
  | survey_json (status : nat) (survey : uuid * survey_row)
      (questions : list survey_question_row)
  | survey_error (status : nat) (error : string).

(** String.prototype.includes *)
Definition includes (s sub : string) : bool :=
  match String.index 0 sub s with
  | Some _ => true
  | None => false
  end.

(** POST / through the transaction RPC *)
Definition post_survey_rpc (db : DB) (a : actor) (new_id : uuid)
    (input : CreateSurveyInput) : survey_response * DB :=
  match create_survey_with_questions db a new_id (csv_account_id input)
          (csv_team_id input) (csv_title input) (csv_is_active input)
          (question_to_json <$> csv_questions input) with
  | (Err error, db') =>
      if includes (error_message error) "Access Denied"
      then (survey_error 403 (error_message error), db')
      else (survey_error 500 (error_message error), db')
  | (Ok data, db') => (survey_rpc_json 201 data, db')
  end.

(** questionsToInsert of the pseudo-transaction variant *)
Definition questionsToInsert (survey_id : uuid) (qs : list QuestionInput)
    : list question_values :=
  (λ q, {| v_survey_id := Some survey_id;
           v_question_text := Some (qi_question_text q);
           v_response_type := Some (question_type_text (qi_question_type q));
           v_order_index := Some (qi_order_index q);
           v_is_required := Some (qi_is_required q) |}) <$> qs.

(** POST / as a pseudo-transaction: insert the survey, insert the
    questions, delete the survey again if the questions failed. *)
Definition post_survey_two_step (db : DB) (a : actor) (new_id : uuid)
    (input : CreateSurveyInput) : survey_response * DB :=
  match insert_survey db a new_id
          (survey_values (csv_account_id input) (csv_team_id input)
             (csv_title input) (csv_is_active input)) with
  | (Err surveyError, db1) =>
      (survey_error 500 (error_message surveyError), db1)
  | (Ok survey, db1) =>
      match insert_questions db1 a
              (questionsToInsert survey.1 (csv_questions input)) with
      | (Err questionsError, db2) =>
          let db3 := (delete_survey db2 a survey.1).2 in
          (survey_error 500 (error_message questionsError), db3)
      | (Ok createdQuestions, db2) =>
          (survey_json 201 survey createdQuestions, db2)
      end
  end.

(** ** Teams *)

(** CreateTeamSchema = TeamSchema without id, deleted_at, created_at,
    updated_at. *)
Record CreateTeamInput := {
  ct_account_id : uuid;
  ct_name : string
}.

Definition CreateTeamSchema (b : CreateTeamInput) : bool :=
  negb (String.eqb (ct_name b) "").

(** supabase.from('teams').insert(body).select().single() *)
Definition insert_team (db : DB) (a : actor) (id : uuid) (r : team_row)
    : pg_result (uuid * team_row) * DB :=
  match new_row_verdict "teams"
          (conj (row_check teams_policies db a INSERT (id, r))
                (readable teams_policies db a (id, r))) with
  | Some e => (Err e, db)
  | None =>
      if bool_decide (is_Some (teams db !! id))
      then (Err (unique_violation "teams_pkey"), db)
      else if negb (bool_decide (is_Some (accounts db !! teams_account_id r)))
      then (Err (foreign_key_violation "teams" "teams_account_id_fkey"), db)
      else (Ok (id, r), with_teams db (<[id := r]> (teams db)))
  end.

(** supabase.from('team_members').insert({team_id, user_id, role}) *)
Definition insert_team_member (db : DB) (a : actor) (team usr : uuid)
    (role : team_role) : pg_result unit * DB :=
  match new_row_verdict "team_members"
          (row_check team_members_policies db a INSERT ((team, usr), role)) with
  | Some e => (Err e, db)
  | None =>
      if bool_decide (is_Some (team_members db !! (team, usr)))
      then (Err (unique_violation "team_members_pkey"), db)
      else if negb (bool_decide (is_Some (teams db !! team)))
      then (Err (foreign_key_violation "team_members" "team_members_team_id_fkey"), db)
      else (Ok (), with_team_members db (<[(team, usr) := role]> (team_members db)))
  end.

Inductive team_response :=
  | team_json (status : nat) (team : uuid * team_row)
  | team_error (status : nat) (error : string)
  | team_partial (status : nat) (error : string) (details : pg_error)
      (team : uuid * team_row)
  | team_invalid.            (* 400 from zValidator *)

(** POST / of the teams route *)
Definition post_team (db : DB) (a : actor) (new_id : uuid)
    (body : CreateTeamInput) : team_response * DB :=
  if negb (CreateTeamSchema body) then (team_invalid, db)
  else
    match auth_uid a with
    | None => (team_error 401 "Unauthorized", db)
    | Some user =>
        (* 1. Insert Team *)
        match insert_team db a new_id
                {| teams_account_id := ct_account_id body;
                   teams_name := ct_name body;
                   teams_deleted_at := None |} with
        | (Err teamError, db1) => (team_error 500 (error_message teamError), db1)
        | (Ok team, db1) =>
            (* 2. Insert Member (Lead) *)
            match insert_team_member db1 a team.1 user lead with
            | (Err memberError, db2) =>
                (team_partial 500 "Team created but failed to assign lead role."
                   memberError team, db2)
            | (Ok _, db2) => (team_json 201 team, db2)
            end
        end
    end.


(** ** Specification vocabulary and sample states *)

(** The row an operation is aimed at: the existing row, or for an insert
    the new one. *)
Definition target {R} (op : operation R) : R :=
  match op with
  | op_select r | op_update r _ | op_delete r => r
  | op_insert n => n
  end.

Definition is_write {R} (op : operation R) : Prop :=
  match op with
  | op_select _ => False
  | _ => True
  end.


(** A system-template survey owned by account 1, and an authenticated
    user 7 who is in no account. *)
Definition template_survey : survey_row :=
  {| surveys_team_id := None; surveys_title := "Retro";
     surveys_is_system_template := Some true;
     surveys_account_id := 1%positive; surveys_is_active := true |}.

(** Account 1 with owner 7 as its only member; user 8 is in no account. *)
Definition db_one_account : DB :=
  with_accounts
    {| accounts := ∅;
       account_members := {[ (1%positive, 7%positive) := owner ]};
       teams := ∅; team_members := ∅; sprints := ∅; surveys := ∅;
       survey_questions := []; survey_responses := ∅; kudos := ∅;
       work_items := ∅; sprint_commitments := ∅; sprint_snapshots := ∅ |}
    {[ 1%positive := {| accounts_name := "A"; accounts_slug := "a";
                        accounts_is_test_tenant := Some false;
                        accounts_owner_user_id := 7%positive;
                        accounts_updated_at := 0%Z |} ]}.

Definition sample_sprint : sprint_row :=
  {| sprints_team_id := 3%positive; sprints_account_id := 1%positive;
     sprints_name := "S"; sprints_goal := None;
     sprints_start_date := Date 2026 1 1; sprints_end_date := Date 2026 1 14;
     sprints_status := planned; sprints_updated_at := 0%Z |}.

(** Row [row] of survey_questions is the stored form of record [x] of
    p_questions, under survey [sid]. *)
Definition question_persisted (sid : uuid) (row : survey_question_row)
    (x : question_record) : Prop :=
  sq_survey_id row = Some sid
  ∧ x_question_text x = Some (sq_question_text row)
  ∧ x_question_type x = Some (sq_response_type row)
  ∧ x_order_index x = Some (sq_order_index row)
  ∧ sq_is_required row = Some (default true (x_is_required x)).

(** Account 1 with members 7 (owner) and 8 (member); team 3 of account 1
    whose only member is 7, as lead. *)
Definition db_team : DB :=
  {| accounts := {[ 1%positive := {| accounts_name := "A"; accounts_slug := "a";
                                     accounts_is_test_tenant := Some false;
                                     accounts_owner_user_id := 7%positive;
                                     accounts_updated_at := 0%Z |} ]};
     account_members := {[ (1%positive, 7%positive) := owner;
                           (1%positive, 8%positive) := member ]};
     teams := {[ 3%positive := {| teams_account_id := 1%positive;
                                  teams_name := "T";
                                  teams_deleted_at := None |} ]};
     team_members := {[ (3%positive, 7%positive) := lead ]};
     sprints := ∅; surveys := ∅; survey_questions := [];
     survey_responses := ∅; kudos := ∅; work_items := ∅;
     sprint_commitments := ∅; sprint_snapshots := ∅ |}.

Definition text_question : QuestionInput :=
  {| qi_question_text := "What went well?"; qi_question_type := qt_text;
     qi_order_index := 0; qi_is_required := true |}.

Definition scale_question : QuestionInput :=
  {| qi_question_text := "How was the sprint?"; qi_question_type := qt_scale;
     qi_order_index := 1; qi_is_required := true |}.


(** The same request with the text question only. *)
Definition survey_text_only : CreateSurveyInput :=
  {| csv_account_id := 1%positive; csv_team_id := Some 3%positive;
     csv_title := "Pulse"; csv_is_active := true;
     csv_questions := [text_question] |}.


Definition response_type_violation : pg_error :=
  check_violation "survey_questions" "survey_questions_response_type_check".

(** The team row POST /teams inserts for a validated body. *)
Definition team_values (body : CreateTeamInput) : team_row :=
  {| teams_account_id := ct_account_id body; teams_name := ct_name body;
     teams_deleted_at := None |}.

Definition platform_team : CreateTeamInput :=
  {| ct_account_id := 1%positive; ct_name := "Platform" |}.


Definition valid_dates_violation : pg_error :=
  check_violation "sprints" "valid_dates".

(** Team 3 with one stored sprint, 2026-01-01 to 2026-01-14. *)
Definition db_sprint : DB :=
  with_sprints db_team {[ 4%positive := sample_sprint ]}.

(** A PATCH body that names end_date only. *)
Definition end_date_only (e : string) : UpdateSprintInput :=
  {| us_name := None; us_start_date := None; us_end_date := Some e;
     us_goal := None; us_status := None |}.



(** One UPDATE on work_items: who runs it, when, on which row, and its
    SET list. *)
Record update_request := {
  ur_actor : actor;
  ur_now : timestamptz;
  ur_id : uuid;
  ur_patch : work_item_patch
}.

Definition run_updates (db : DB) (reqs : list update_request) : DB :=
  foldl (λ db r, (update_work_item db (ur_actor r) (ur_now r) (ur_id r)
                    (ur_patch r)).2) db reqs.

(** An UPDATE that sets status and nothing else. *)
Definition set_status (s : work_item_status) : work_item_patch :=
  {| set_wi_sprint_id := None; set_wi_title := None;
     set_wi_status := Some s; set_wi_completed_at := None |}.


Definition sample_work_item : work_item_row :=
  {| wi_team_id := 3%positive; wi_account_id := 1%positive;
     wi_sprint_id := Some 4%positive; wi_title := "Story";
     wi_status := todo; wi_completed_at := None; wi_updated_at := 0%Z |}.

(** The sprint of [db_sprint] with one work item, 5, in it. *)
Definition db_work : DB :=
  with_work_items db_sprint {[ 5%positive := sample_work_item ]}.

(** [db_sprint] with one kudos row, 6, given in sprint 4 (and no work
    item). *)
Definition db_kudos : DB :=
  {| accounts := accounts db_sprint; account_members := account_members db_sprint;
     teams := teams db_sprint; team_members := team_members db_sprint;
     sprints := sprints db_sprint; surveys := ∅; survey_questions := [];
     survey_responses := ∅;
     kudos := {[ 6%positive :=
                   {| kudos_team_id := Some 3%positive;
                      kudos_sender_user_id := Some 7%positive;
                      kudos_receiver_user_id := Some 8%positive;
                      kudos_sprint_id := Some 4%positive;
                      kudos_account_id := 1%positive;
                      kudos_message := "Thanks" |} ]};
     work_items := ∅; sprint_commitments := ∅; sprint_snapshots := ∅ |}.

Definition plain_account (name slug : string) (flag : bool) : account_row :=
  {| accounts_name := name; accounts_slug := slug;
     accounts_is_test_tenant := Some flag;
     accounts_owner_user_id := 7%positive; accounts_updated_at := 0%Z |}.

(** User 7 belongs to two accounts, 1 and 2, neither a test tenant. *)
Definition db_two_accounts : DB :=
  {| accounts := {[ 1%positive := plain_account "A" "a" false;
                    2%positive := plain_account "B" "b" false ]};
     account_members := {[ (1%positive, 7%positive) := owner;
                           (2%positive, 7%positive) := member ]};
     teams := ∅; team_members := ∅; sprints := ∅; surveys := ∅;
     survey_questions := []; survey_responses := ∅; kudos := ∅;
     work_items := ∅; sprint_commitments := ∅; sprint_snapshots := ∅ |}.

(** An UPDATE that renames the account and leaves the flag alone. *)
Definition rename_account (name : string) : account_patch :=
  {| set_accounts_name := Some name; set_accounts_is_test_tenant := None |}.

(** An UPDATE that sets the flag. *)
Definition set_test_tenant (flag : bool) : account_patch :=
  {| set_accounts_name := None; set_accounts_is_test_tenant := Some (Some flag) |}.

(** * The rest of the routes and policies *)

(** ** account_members: joining an account *)

(** insert into account_members (account_id, user_id, role) values (...).
    The role column's check holds for every [account_role]; the reference
    to auth.users is outside the tables kept here. *)
Definition insert_account_member (db : DB) (a : actor) (acc usr : uuid)
    (role : account_role) : pg_result unit * DB :=
  match new_row_verdict "account_members"
          (row_check account_members_policies db a INSERT ((acc, usr), role)) with
  | Some e => (Err e, db)
  | None =>
      if bool_decide (is_Some (account_members db !! (acc, usr)))
      then (Err (unique_violation "account_members_pkey"), db)
      else if negb (bool_decide (is_Some (accounts db !! acc)))
      then (Err (foreign_key_violation "account_members"
                   "account_members_account_id_fkey"), db)
      else (Ok (),
            {| accounts := accounts db;
               account_members := <[(acc, usr) := role]> (account_members db);
               teams := teams db; team_members := team_members db;
               sprints := sprints db; surveys := surveys db;
               survey_questions := survey_questions db;
               survey_responses := survey_responses db; kudos := kudos db;
               work_items := work_items db;
               sprint_commitments := sprint_commitments db;
               sprint_snapshots := sprint_snapshots db |})
  end.

(** ** kudos *)

(** is_team_member(team_id) and sender_user_id = auth.uid() *)
Definition kudos_own (db : DB) (a : actor) (r : uuid * kudos_row) : verdict :=
  of_bool
    (is_team_member db a (kudos_team_id r.2)
     && match kudos_sender_user_id r.2, auth_uid a with
        | Some s, Some u => bool_decide (s = u)
        | _, _ => false
        end).

Definition kudos_policies : list (policy (uuid * kudos_row)) := [
  Policy "View kudos" (Some SELECT) true
    (Some (λ db a r, of_bool (is_team_member db a (kudos_team_id r.2)))) None;
  Policy "Manage kudos" None true (Some kudos_own) (Some kudos_own)
].

(** ** survey_responses *)

(** A read of one sprint by primary key, as the actor. *)
Definition select_sprint (db : DB) (a : actor) (id : uuid) : option sprint_row :=
  s ← sprints db !! id;
  if is_pass (readable sprints_policies db a (id, s)) then Some s else None.

(** user_id = auth.uid(), NULL on either side being no match *)
Definition response_own (a : actor) (r : survey_response_row) : bool :=
  match sr_user_id r, auth_uid a with
  | Some s, Some u => bool_decide (s = u)
  | _, _ => false
  end.

(** exists (select 1 from sprints s where s.id = sprint_id
            and is_team_member(s.team_id)) *)
Definition response_sprint_of_team (db : DB) (a : actor)
    (r : survey_response_row) : bool :=
  match sr_sprint_id r with
  | Some sid =>
      match select_sprint db a sid with
      | Some s => is_team_member db a (Some (sprints_team_id s))
      | None => false
      end
  | None => false
  end.

(** exists (select 1 from sprints s join team_members tm
            on tm.team_id = s.team_id where s.id = sprint_id
            and tm.user_id = auth.uid() and tm.role = 'lead') *)
Definition response_lead_of_sprint (db : DB) (a : actor)
    (r : survey_response_row) : bool :=
  match sr_sprint_id r with
  | Some sid =>
      match select_sprint db a sid with
      | Some s => exists_lead_membership db a (Some (sprints_team_id s))
      | None => false
      end
  | None => false
  end.

Definition survey_responses_policies
  : list (policy (uuid * survey_response_row)) := [
  Policy "View responses" (Some SELECT) true
    (Some (λ db a r,
       of_bool (response_own a r.2 || response_lead_of_sprint db a r.2)))
    None;
  Policy "Submit response" (Some INSERT) true
    None
    (Some (λ db a r,
       of_bool (response_sprint_of_team db a r.2 && response_own a r.2)));
  Policy "Edit own response" (Some UPDATE) true
    (Some (λ db a r, of_bool (response_own a r.2)))
    (Some (λ db a r,
       of_bool (response_own a r.2 && response_sprint_of_team db a r.2)));
  Policy "Delete own response" (Some DELETE) true
    (Some (λ db a r, of_bool (response_own a r.2)))
    None
].

(** ** GET routes of routes/sprints.ts *)


(** order('end_date', { ascending: false }) *)
Definition by_end_date_desc (r1 r2 : uuid * sprint_row) : Prop :=
  date_leb (sprints_end_date r2.2) (sprints_end_date r1.2) = true.

#[global] Instance by_end_date_desc_dec r1 r2 : Decision (by_end_date_desc r1 r2).
Proof. unfold by_end_date_desc. apply _. Defined.



(** ** GET and DELETE routes of routes/surveys.ts *)






(** ** GET routes of routes/teams.ts *)

Inductive team_read_response :=
  | team_list (status : nat) (rows : list (uuid * team_row))
  | team_mine (status : nat) (rows : list ((uuid * team_row) * team_role))
  | team_one (status : nat) (team : uuid * team_row)
  | team_read_error (status : nat) (error : string).

(** GET / : select * from teams *)
Definition get_teams (db : DB) (a : actor) : team_read_response :=
  team_list 200
    (filter (λ r, is_pass (readable teams_policies db a r) = true)
            (map_to_list (teams db))).

(** GET /mine : select *, team_members!inner(role) from teams where
    team_members.user_id = user.id; a team comes with the role of its
    one membership row of that user. *)
Definition get_my_teams (db : DB) (a : actor) : team_read_response :=
  match auth_uid a with
  | None => team_read_error 401 "Unauthorized"
  | Some user =>
      team_mine 200
        (omap (λ r, if is_pass (readable teams_policies db a r)
                    then (λ role, (r, role)) <$> select_team_member db a r.1 user
                    else None)
              (map_to_list (teams db)))
  end.

(** GET /:id : any error is answered 404. *)
Definition get_team (db : DB) (a : actor) (id : uuid) : team_read_response :=
  match select_team db a id with
  | Some t => team_one 200 (id, t)
  | None => team_read_error 404 (error_message no_rows)
  end.

(** ** Vocabulary of the further properties *)

(** The actor cannot reach sprint [id]: there is none, or it belongs to
    an account the actor is not a member of. *)
Definition sprint_unreachable (db : DB) (a : actor) (id : uuid) : Prop :=
  match sprints db !! id with
  | None => True
  | Some s => is_account_member db a (sprints_account_id s) = false
  end.

(** No row of a table that references sprints points at [id]. *)
Definition no_reference_to_sprint (db : DB) (id : uuid) : Prop :=
  sprints db !! id = None
  ∧ map_Forall (λ _ w, wi_sprint_id w ≠ Some id) (work_items db)
  ∧ map_Forall (λ _ r, sr_sprint_id r ≠ Some id) (survey_responses db)
  ∧ map_Forall (λ _ k, kudos_sprint_id k ≠ Some id) (kudos db)
  ∧ map_Forall (λ _ c, sc_sprint_id c ≠ id) (sprint_commitments db)
  ∧ map_Forall (λ _ c, sc_sprint_id c ≠ id) (sprint_snapshots db).

Definition sprint_blocked_message : string :=
  "Cannot delete sprint: it still has associated work items. Remove them first.".



(** One UPDATE on accounts: who runs it, when, on which row, and its SET
    list. *)
Record account_update := {
  au_actor : actor;
  au_now : timestamptz;
  au_id : uuid;
  au_patch : account_patch
}.

Definition run_account_updates (db : DB) (reqs : list account_update) : DB :=
  foldl (λ db r, (update_account db (au_actor r) (au_now r) (au_id r)
                    (au_patch r)).2) db reqs.

(** The account is stored and flagged as a test tenant. *)
Definition is_test_tenant (db : DB) (id : uuid) : Prop :=
  ∃ r, accounts db !! id = Some r ∧ accounts_is_test_tenant r = Some true.

(** A test tenant, account 1, with member 7. *)
Definition db_test_tenant : DB :=
  {| accounts := {[ 1%positive := plain_account "A" "a" true ]};
     account_members := {[ (1%positive, 7%positive) := owner ]};
     teams := ∅; team_members := ∅; sprints := ∅; surveys := ∅;
     survey_questions := []; survey_responses := ∅; kudos := ∅;
     work_items := ∅; sprint_commitments := ∅; sprint_snapshots := ∅ |}.



(** The actor's role in the account is owner or admin. *)
Definition owner_or_admin (db : DB) (a : actor) (acc : uuid) : Prop :=
  ∃ u, auth_uid a = Some u
       ∧ (account_members db !! (acc, u) = Some owner
          ∨ account_members db !! (acc, u) = Some admin).

(** Every stored sprint carries the account of its team. *)
Definition sprints_follow_team (db : DB) : Prop :=
  map_Forall
    (λ _ s, ∃ t, teams db !! sprints_team_id s = Some t
                 ∧ sprints_account_id s = teams_account_id t)
    (sprints db).

(** The same response row with another value of is_confidential. *)
Definition with_confidential (b : bool) (r : uuid * survey_response_row)
    : uuid * survey_response_row :=
  (r.1, {| sr_survey_id := sr_survey_id r.2; sr_user_id := sr_user_id r.2;
           sr_sprint_id := sr_sprint_id r.2; sr_is_confidential := b |}).

Definition map_operation {R} (f : R → R) (op : operation R) : operation R :=
  match op with
  | op_select r => op_select (f r)
  | op_insert n => op_insert (f n)
  | op_update o n => op_update (f o) (f n)
  | op_delete o => op_delete (f o)
  end.


(** * Properties *)

(** ** Policy evaluation lemmas *)

Lemma conj_pass v1 v2 : conj v1 v2 = Pass ↔ v1 = Pass ∧ v2 = Pass.
Proof. destruct v1; simpl; intuition congruence. Qed.

Lemma conj_reject_l v : conj Reject v = Reject.
Proof. reflexivity. Qed.

Lemma of_bool_pass b : of_bool b = Pass ↔ b = true.
Proof. destruct b; simpl; intuition congruence. Qed.

Lemma new_row_verdict_none t v : new_row_verdict t v = None ↔ v = Pass.
Proof. destruct v; simpl; intuition congruence. Qed.

Lemma is_account_member_false_lookup db u acc :
  is_account_member db (Some u) acc = false →
  account_members db !! (acc, u) = None.
Proof.
  unfold is_account_member; simpl. intros H.
  apply bool_decide_eq_false in H.
  destruct (account_members db !! (acc, u)) eqn:E; [|done].
  exfalso; apply H; eauto.
Qed.

Lemma sprints_policy_all db a c r :
  row_using sprints_policies db a c r
  = of_bool (is_account_member db a (sprints_account_id r.2))
  ∧ row_check sprints_policies db a c r
  = of_bool (is_account_member db a (sprints_account_id r.2)).
Proof.
  unfold row_using, row_check, sprints_policies; simpl.
  destruct (is_account_member db a _); auto.
Qed.

Lemma work_items_policy_all db a c r :
  row_using work_items_policies db a c r
  = of_bool (is_account_member db a (wi_account_id r.2))
  ∧ row_check work_items_policies db a c r
  = of_bool (is_account_member db a (wi_account_id r.2)).
Proof.
  unfold row_using, row_check, work_items_policies; simpl.
  destruct (is_account_member db a _); auto.
Qed.


Lemma surveys_manage_only db a c r :
  c ≠ SELECT →
  row_using surveys_policies db a c r = Pass ∨ row_check surveys_policies db a c r = Pass →
  exists_lead_membership db a (surveys_team_id r.2) = true.
Proof.
  intros Hc.
  unfold row_using, row_check, surveys_policies, applies, check_expr; simpl.
  rewrite (bool_decide_eq_false_2 (c = SELECT)) by done. simpl.
  destruct (bool_decide (auth_role a = role_authenticated)); simpl.
  - destruct (exists_lead_membership db a _); simpl; intuition congruence.
  - intuition congruence.
Qed.

(** ** Tenant isolation *)

(** The creation procedure, statement by statement. *)
Lemma create_survey_with_questions_unfold db a new_id acc team title act qs :
  create_survey_with_questions db a new_id acc team title act qs
  = if negb (is_account_member db a acc)
    then (Err (raise_exception
                 "Access Denied: User is not a member of this account"), db)
    else
      match insert_survey_row db new_id (survey_values acc team title act) with
      | (Err e, _) => (Err e, db)
      | (Ok _, db1) =>
          match insert_question_rows no_guard db1
                  (question_select_list new_id <$> qs) with
          | (Err e, _) => (Err e, db)
          | (Ok _, db2) =>
              (Ok {| ret_id := new_id; ret_account_id := acc;
                     ret_title := title;
                     ret_questions := questions_of db2 new_id |}, db2)
          end
      end.
Proof.
  unfold create_survey_with_questions, run_transaction,
    create_survey_with_questions_body, mbind, tx_bind, tx_get, tx_raise,
    mret, tx_ret.
  cbn beta iota.
  destruct (is_account_member db a acc); simpl; [|done].
  destruct (insert_survey_row _ _ _) as [[u|e] db1]; [|done].
  by destruct (insert_question_rows _ _ _) as [[rows|e] db2].
Qed.

Lemma rpc_non_member db a new_id acc team title act qs :
  is_account_member db a acc = false →
  create_survey_with_questions db a new_id acc team title act qs
  = (Err (raise_exception
            "Access Denied: User is not a member of this account"), db).
Proof.
  intros H.
  unfold create_survey_with_questions, run_transaction,
    create_survey_with_questions_body, mbind, tx_bind, tx_get, tx_raise.
  cbn beta iota. rewrite H. reflexivity.
Qed.

Lemma teams_denied_non_member db a op :
  is_account_member db a (teams_account_id (target op).2) = false →
  permitted teams_policies db a op = Reject.
Proof.
  intros H.
  destruct op as [r|n|o n|o]; unfold permitted, row_using, row_check,
    teams_policies, applies, check_expr; simpl in *.
  - destruct (bool_decide (auth_role a = role_authenticated)); simpl; [|done].
    rewrite H. done.
  - destruct (bool_decide (auth_role a = role_authenticated)); simpl; [|done].
    destruct a as [u|]; simpl; [|done].
    unfold select_account_member.
    rewrite (is_account_member_false_lookup _ _ _ H). done.
  - done.
  - done.
Qed.

(** C1, as stated, fails: the claim quantifies over every entity and
    names system-template readability as no exception, but the
    View surveys policy lets an actor with no membership in the owning
    account read a system-template survey. *)
Lemma system_template_read_by_non_member :
  ¬ (∀ (db : DB) (a : actor) (op : operation (uuid * survey_row)),
       is_account_member db a (surveys_account_id (target op).2) = false →
       permitted surveys_policies db a op ≠ Pass).
Proof.
  intros H.
  apply (H empty_db (Some 7%positive) (op_select (5%positive, template_survey)));
    reflexivity.
Qed.

(** C1 (amended): an actor with no AccountMembership in account [acc] is
    refused every operation (select, insert, update, delete) on a sprint,
    a work item or a team of that account, and the survey-creation
    procedure called for that account raises the access-denied exception
    and writes nothing.  Surveys are outside this rule: a system-template
    survey (no team, is_system_template true) can be read by every
    authenticated actor. *)
Theorem tenant_isolation (db : DB) (a : actor) (acc : uuid) :
  is_account_member db a acc = false →
  (∀ op, sprints_account_id (target op).2 = acc →
         permitted sprints_policies db a op = Reject)
  ∧ (∀ op, wi_account_id (target op).2 = acc →
           permitted work_items_policies db a op = Reject)
  ∧ (∀ op, teams_account_id (target op).2 = acc →
           permitted teams_policies db a op = Reject)
  ∧ (∀ new_id team title act qs,
       create_survey_with_questions db a new_id acc team title act qs
       = (Err (raise_exception
                 "Access Denied: User is not a member of this account"), db))
  ∧ (∀ u id sv,
       surveys_team_id sv = None →
       surveys_is_system_template sv = Some true →
       permitted surveys_policies db (Some u) (op_select (id, sv)) = Pass).
Proof.
  intros H. split_and!.
  - intros op <-. destruct op as [r|n|o n|o]; simpl in *;
      rewrite ?(proj1 (sprints_policy_all _ _ _ _)),
              ?(proj2 (sprints_policy_all _ _ _ _)), H; done.
  - intros op <-. destruct op as [r|n|o n|o]; simpl in *;
      rewrite ?(proj1 (work_items_policy_all _ _ _ _)),
              ?(proj2 (work_items_policy_all _ _ _ _)), H; done.
  - intros op <-. by apply teams_denied_non_member.
  - intros. by apply rpc_non_member.
  - intros u id sv Ht Hs.
    unfold permitted, row_using, surveys_policies, applies; simpl.
    rewrite Ht, Hs. done.
Qed.

Lemma tenant_isolation_witness :
  is_account_member db_one_account (Some 8%positive) 1%positive = false
  ∧ permitted sprints_policies db_one_account (Some 8%positive)
      (op_select (4%positive, sample_sprint)) = Reject.
Proof.
  split; [reflexivity|].
  apply (tenant_isolation db_one_account (Some 8%positive) 1%positive);
    reflexivity.
Defined.

(** ** The bulk insert of questions *)

Lemma check_question_row db v row :
  check_question db v = Ok row →
  sq_survey_id row = v_survey_id v
  ∧ v_question_text v = Some (sq_question_text row)
  ∧ v_response_type v = Some (sq_response_type row)
  ∧ v_order_index v = Some (sq_order_index row)
  ∧ sq_is_required row = v_is_required v
  ∧ response_type_check (sq_response_type row) = true.
Proof.
  unfold check_question.
  destruct (v_question_text v) as [txt|]; [|done].
  destruct (v_response_type v) as [rt|]; [|done].
  destruct (v_order_index v) as [oi|]; [|done].
  destruct (response_type_check rt) eqn:Hrt; simpl; [|done].
  destruct (match v_survey_id v with Some _ => _ | None => _ end); [done|].
  intros [= <-]. simpl. by split_and!.
Qed.

Lemma insert_question_rows_ok guard vs : ∀ db rows db',
  insert_question_rows guard db vs = (Ok rows, db') →
  db' = with_survey_questions db (survey_questions db ++ rows)
  ∧ Forall2 (λ row v, check_question db v = Ok row) rows vs.
Proof.
  induction vs as [|v rest IH]; intros db rows db'; simpl.
  - intros [= <- <-]. rewrite app_nil_r. by destruct db.
  - destruct (guard db v); [done|].
    destruct (check_question db v) as [row|] eqn:Hrow; [|done].
    destruct (insert_question_rows guard _ rest) as [[rows'|e] db''] eqn:Hrec;
      [|done].
    intros [= <- <-].
    apply IH in Hrec as [-> Hall]. split.
    + unfold with_survey_questions; simpl. by rewrite <- app_assoc.
    + constructor; [done|]. exact Hall.
Qed.

(** ** Atomic survey creation *)

Lemma rpc_success db a new_id acc team title act qs ret db' :
  create_survey_with_questions db a new_id acc team title act qs = (Ok ret, db') →
  is_account_member db a acc = true
  ∧ surveys db !! new_id = None
  ∧ ∃ rows,
      db' = with_survey_questions
              (with_surveys db
                 (<[new_id := survey_values acc team title act]> (surveys db)))
              (survey_questions db ++ rows)
      ∧ Forall2 (question_persisted new_id) rows qs
      ∧ Forall (λ row, response_type_check (sq_response_type row) = true) rows
      ∧ ret_id ret = new_id.
Proof.
  unfold create_survey_with_questions, run_transaction,
    create_survey_with_questions_body, mbind, tx_bind, tx_get, tx_raise,
    mret, tx_ret.
  cbn beta iota.
  destruct (is_account_member db a acc) eqn:Hm; simpl; [|done].
  unfold insert_survey_row. simpl.
  destruct (bool_decide (is_Some (surveys db !! new_id))) eqn:Hpk; [done|].
  destruct (negb (bool_decide (is_Some (accounts db !! acc)))); [done|].
  destruct (match team with Some _ => _ | None => _ end); [done|].
  destruct (insert_question_rows no_guard _ _) as [[rows|e] db1] eqn:Hq; [|done].
  intros [= <- <-]. split; [done|]. split.
  { apply bool_decide_eq_false in Hpk.
    destruct (surveys db !! new_id) eqn:E; [|done]. exfalso; eauto. }
  apply insert_question_rows_ok in Hq as [-> Hall].
  exists rows. split_and!; try done.
  - apply list.Forall2_fmap_r in Hall.
    eapply list.Forall2_impl; [exact Hall|].
    intros row x Hrow. simpl in Hrow.
    apply check_question_row in Hrow as (H1 & H2 & H3 & H4 & H5 & _).
    unfold question_persisted. by destruct x.
  - set (vs := _ <$> qs) in Hall. clearbody vs.
    induction Hall as [|row v rows vs Hrow _ IH]; constructor; [|done].
    by apply check_question_row in Hrow as (_ & _ & _ & _ & _ & ?).
Qed.

Lemma rpc_failure db a new_id acc team title act qs e db' :
  create_survey_with_questions db a new_id acc team title act qs = (Err e, db') →
  db' = db.
Proof.
  unfold create_survey_with_questions, run_transaction.
  destruct (create_survey_with_questions_body _ _ _ _ _ _ _ db)
    as [[?|?] ?]; congruence.
Qed.

(** C2: a call of create_survey_with_questions either returns, and then
    the survey row and one question row per element of p_questions are
    stored (and nothing else changed), or raises, and then the database
    is exactly as before the call: no survey row and no question row of
    the call remains. *)
Theorem create_survey_with_questions_all_or_nothing
    (db : DB) (a : actor) (new_id acc : uuid) (team : option uuid)
    (title : string) (act : bool) (qs : list question_record) :
  match create_survey_with_questions db a new_id acc team title act qs with
  | (Ok ret, db') =>
      ret_id ret = new_id
      ∧ surveys db !! new_id = None
      ∧ surveys db' !! new_id = Some (survey_values acc team title act)
      ∧ ∃ rows : list survey_question_row,
          survey_questions db' = (survey_questions db ++ rows)%list
          ∧ Forall2 (question_persisted new_id) rows qs
          ∧ db' = with_survey_questions
                    (with_surveys db
                       (<[new_id := survey_values acc team title act]>
                          (surveys db)))
                    (survey_questions db ++ rows)%list
  | (Err _, db') => db' = db
  end.
Proof.
  destruct (create_survey_with_questions db a new_id acc team title act qs)
    as [[ret|e] db'] eqn:Hcall.
  - apply rpc_success in Hcall
      as (_ & Hfresh & rows & -> & Hrows & _ & Hid).
    split_and!; try done.
    + simpl. apply lookup_insert_eq.
    + by exists rows.
  - by apply rpc_failure in Hcall.
Qed.

(** The body alone does leave a partial state when the question insert
    fails (the survey is written, the text question too); it is the
    transaction around the call that discards it. *)
Example rpc_body_partial_state :
  let run := create_survey_with_questions_body (Some 7%positive) 9%positive
               1%positive (Some 3%positive) "Pulse" true
               (question_to_json <$> [text_question; scale_question]) db_team in
  run.1 = Err response_type_violation
  ∧ is_Some (surveys run.2 !! 9%positive)
  ∧ List.length (survey_questions run.2) = 1%nat.
Proof. vm_compute. split_and!; eauto. Qed.

Example rpc_child_failure_leaves_nothing :
  create_survey_with_questions db_team (Some 7%positive) 9%positive
    1%positive (Some 3%positive) "Pulse" true
    (question_to_json <$> [text_question; scale_question])
  = (Err response_type_violation, db_team).
Proof. reflexivity. Qed.

Example rpc_text_only_succeeds :
  let run := create_survey_with_questions db_team (Some 7%positive) 9%positive
               1%positive (Some 3%positive) "Pulse" true
               (question_to_json <$> [text_question]) in
  is_Some (surveys run.2 !! 9%positive)
  ∧ List.length (survey_questions run.2) = 1%nat.
Proof. vm_compute. split; eauto. Qed.

(** ** Question types against the response_type check *)






(** ** The two-step (compensating) survey creation *)






(** ** Only text questions are ever stored by the creation paths *)

Lemma with_survey_questions_id db :
  with_survey_questions db (survey_questions db) = db.
Proof. by destruct db. Qed.












(** A request with text questions only is stored by both routes. *)
Example text_only_survey_created :
  (∃ data db',
     post_survey_rpc db_team (Some 7%positive) 9%positive survey_text_only
     = (survey_rpc_json 201 data, db')
     ∧ sq_response_type <$> survey_questions db' = ["text"])
  ∧ (∃ survey questions db',
       post_survey_two_step db_team (Some 7%positive) 9%positive survey_text_only
       = (survey_json 201 survey questions, db')
       ∧ sq_response_type <$> survey_questions db' = ["text"]).
Proof. split; vm_compute; eauto. Qed.

(** ** Who may write surveys and questions *)






(** ** Team creation: accept and report *)

Lemma insert_team_ok db a id r team db1 :
  insert_team db a id r = (Ok team, db1) →
  team = (id, r) ∧ db1 = with_teams db (<[id := r]> (teams db)).
Proof.
  unfold insert_team.
  destruct (new_row_verdict _ _); [done|].
  repeat (match goal with
          | |- context [if ?b then _ else _] => destruct b
          end; [done|]).
  by intros [= <- <-].
Qed.

Lemma insert_team_member_err db a team usr role e db' :
  insert_team_member db a team usr role = (Err e, db') → db' = db.
Proof.
  unfold insert_team_member.
  destruct (new_row_verdict _ _); [by intros [= _ <-]|].
  repeat (match goal with
          | |- context [if ?b then _ else _] => destruct b
          end; [by intros [= _ <-]|]).
  done.
Qed.

(** team_members has a SELECT policy only, so an insert by a caller is
    always refused. *)
Lemma insert_team_member_refused db a team usr role :
  insert_team_member db a team usr role
  = (Err (insufficient_privilege "team_members"), db).
Proof.
  unfold insert_team_member, row_check, team_members_policies, applies; simpl.
  done.
Qed.

(** C9: when the team insert succeeded and the lead-membership insert
    failed with [memberError], the handler attempts no rollback (the
    final state is the state right after the team insert, and the team
    is in it) and answers 500 with the created team together with
    [memberError]. *)
Theorem team_creation_accept_and_report (db : DB) (a : actor) (user : uuid)
    (new_id : uuid) (body : CreateTeamInput) (team : uuid * team_row)
    (db1 : DB) (memberError : pg_error) (db2 : DB) :
  CreateTeamSchema body = true →
  auth_uid a = Some user →
  insert_team db a new_id
    {| teams_account_id := ct_account_id body; teams_name := ct_name body;
       teams_deleted_at := None |} = (Ok team, db1) →
  insert_team_member db1 a team.1 user lead = (Err memberError, db2) →
  post_team db a new_id body
  = (team_partial 500 "Team created but failed to assign lead role."
       memberError team, db1)
  ∧ teams db1 !! team.1 = Some team.2.
Proof.
  intros Hv Hu Ht Hm.
  unfold post_team. rewrite Hv. cbn [negb]. rewrite Hu, Ht. cbn iota. rewrite Hm.
  apply insert_team_member_err in Hm as ->.
  apply insert_team_ok in Ht as [-> ->]. simpl.
  split; [done|]. apply lookup_insert_eq.
Qed.

Lemma team_creation_accept_and_report_witness :
  post_team db_team (Some 7%positive) 4%positive platform_team
  = (team_partial 500 "Team created but failed to assign lead role."
       (insufficient_privilege "team_members")
       (4%positive, team_values platform_team),
     with_teams db_team
       (<[4%positive := team_values platform_team]> (teams db_team)))
  ∧ teams (with_teams db_team
             (<[4%positive := team_values platform_team]> (teams db_team)))
      !! 4%positive = Some (team_values platform_team).
Proof.
  apply (team_creation_accept_and_report db_team (Some 7%positive) 7%positive
           4%positive platform_team (4%positive, team_values platform_team)
           (with_teams db_team
              (<[4%positive := team_values platform_team]> (teams db_team)))
           (insufficient_privilege "team_members")
           (with_teams db_team
              (<[4%positive := team_values platform_team]> (teams db_team))));
    reflexivity.
Defined.

(** ** Sprint date ordering *)

Lemma date_in_DateString s d : date_in s = Some d → DateString s = true.
Proof.
  unfold date_in.
  destruct (list_ascii_of_string s) as [|? l]; [done|].
  do 9 (destruct l as [|? l]; [done|]).
  destruct l; [|done].
  by destruct (DateString s).
Qed.

Lemma insert_sprint_cases db a id r :
  match insert_sprint db a id r with
  | (Ok row, db') =>
      row = (id, r) ∧ valid_dates r = true
      ∧ db' = with_sprints db (<[id := r]> (sprints db))
  | (Err _, db') => db' = db
  end.
Proof.
  unfold insert_sprint.
  destruct (new_row_verdict _ _); [done|].
  destruct (valid_dates r); simpl; [|done].
  repeat (match goal with
          | |- context [if ?b then _ else _] => destruct b
          end; [done|]).
  done.
Qed.

Lemma update_sprint_cases db a now id p :
  match update_sprint db a now id p with
  | (Ok row, db') =>
      ∃ old,
        sprints db !! id = Some old
        ∧ row = (id, sprint_set_updated_at now (apply_sprint_patch old p))
        ∧ valid_dates row.2 = true
        ∧ db' = with_sprints db (<[id := row.2]> (sprints db))
  | (Err _, db') => db' = db
  end.
Proof.
  unfold update_sprint.
  destruct (sprints db !! id) as [old|]; [|done].
  destruct (conj _ _); [|done..].
  destruct (new_row_verdict _ _); [done|].
  destruct (valid_dates _) eqn:Hv; simpl; [|done].
  exists old. by split_and!.
Qed.









Example sprint_end_date_moved :
  (patch_sprint db_sprint (Some 7%positive) 5%Z 4%positive
     (end_date_only "2026-02-01")).1
  = sprint_json 200
      (4%positive,
       {| sprints_team_id := 3%positive; sprints_account_id := 1%positive;
          sprints_name := "S"; sprints_goal := None;
          sprints_start_date := Date 2026 1 1;
          sprints_end_date := Date 2026 2 1;
          sprints_status := planned; sprints_updated_at := 5%Z |}).
Proof. reflexivity. Qed.

(** ** The completion timestamp of work items *)










(** The stamps along that run: set on entering done, kept on done to
    done, cleared on leaving done. *)
Example completion_timestamp_run :
  let to_done := {| ur_actor := Some 7%positive; ur_now := 9%Z;
                    ur_id := 5%positive; ur_patch := set_status done |} in
  let again := {| ur_actor := Some 7%positive; ur_now := 10%Z;
                  ur_id := 5%positive; ur_patch := set_status done |} in
  let away := {| ur_actor := Some 7%positive; ur_now := 11%Z;
                 ur_id := 5%positive; ur_patch := set_status review |} in
  wi_completed_at <$> work_items (run_updates db_work [to_done]) !! 5%positive
  = Some (Some 9%Z)
  ∧ wi_completed_at <$>
      work_items (run_updates db_work [to_done; again]) !! 5%positive
    = Some (Some 9%Z)
  ∧ wi_completed_at <$>
      work_items (run_updates db_work [to_done; again; away]) !! 5%positive
    = Some None.
Proof. vm_compute. done. Qed.

(** No trigger fires on insert: a work item inserted as done has no
    completion time. *)
Example insert_done_without_completed_at :
  let w := {| wi_team_id := 3%positive; wi_account_id := 1%positive;
              wi_sprint_id := None; wi_title := "Imported";
              wi_status := done; wi_completed_at := None;
              wi_updated_at := 0%Z |} in
  work_items (insert_work_item db_work (Some 7%positive) 6%positive w).2
    !! 6%positive = Some w.
Proof. reflexivity. Qed.

(** ** Deleting a sprint *)

(** Work items never block the deletion of a sprint: for a member of the
    sprint's account the delete goes through unless a kudos row
    references the sprint. *)
Lemma delete_sprint_ignores_work_items db a now id old :
  sprints db !! id = Some old →
  is_account_member db a (sprints_account_id old) = true →
  ¬ map_Exists (λ _ k, kudos_sprint_id k = Some id) (kudos db) →
  (delete_sprint_route db a now id).1 = sprint_message 200 "Sprint deleted"
  ∧ sprints (delete_sprint_route db a now id).2 !! id = None
  ∧ work_items (delete_sprint_route db a now id).2
    = work_item_set_null now id <$> work_items db.
Proof.
  intros Hold Hm Hk.
  unfold delete_sprint_route, delete_sprint, readable. rewrite Hold.
  rewrite !(proj1 (sprints_policy_all _ _ _ _)). simpl. rewrite Hm. simpl.
  rewrite (bool_decide_eq_false_2 _ Hk). simpl.
  split_and!; [done| |done]. apply lookup_delete_eq.
Qed.

(** C3 on the code: sprint 4 has work item 5 referencing it; its
    deletion by account member 7 is not blocked.  The sprint is deleted,
    the answer is 200, and the work item stays with sprint_id NULL. *)
Theorem sprint_with_work_item_is_deleted :
  let run := delete_sprint_route db_work (Some 7%positive) 20%Z 4%positive in
  is_Some (sprints db_work !! 4%positive)
  ∧ wi_sprint_id <$> work_items db_work !! 5%positive = Some (Some 4%positive)
  ∧ run.1 = sprint_message 200 "Sprint deleted"
  ∧ sprints run.2 !! 4%positive = None
  ∧ wi_sprint_id <$> work_items run.2 !! 5%positive = Some None.
Proof. vm_compute. split_and!; eauto. Qed.

(** The 409 answer that names work items is produced by a kudos row: a
    sprint with no work item at all is refused while a kudos references
    it. *)
Example sprint_with_kudos_is_blocked :
  work_items db_kudos = ∅
  ∧ delete_sprint_route db_kudos (Some 7%positive) 20%Z 4%positive
    = (sprint_error 409
         "Cannot delete sprint: it still has associated work items. Remove them first.",
       db_kudos).
Proof. split; reflexivity. Qed.

(** ** The is_test_tenant flag *)

Lemma update_account_unfold db a now id p :
  update_account db a now id p
  = match accounts db !! id with
    | None => (Ok 0%nat, db)
    | Some old =>
        if is_account_member db a id
        then
          let new := account_set_updated_at now (apply_account_patch old p) in
          match update_own_accounts_check db a (id, new) with
          | Pass => (Ok 1%nat, with_accounts db (<[id := new]> (accounts db)))
          | Reject => (Err (insufficient_privilege "accounts"), db)
          | Raise e => (Err e, db)
          end
        else (Ok 0%nat, db)
    end.
Proof.
  unfold update_account.
  destruct (accounts db !! id) as [old|]; [|done].
  unfold readable, row_using, row_check, accounts_policies, applies,
    check_expr. simpl.
  destruct (is_account_member db a id); simpl; [|done].
  by destruct (update_own_accounts_check db a _).
Qed.

(** An update that would turn the flag from true to false never changes
    the database. *)
Lemma is_test_tenant_never_cleared db a now id p old :
  accounts db !! id = Some old →
  accounts_is_test_tenant old = Some true →
  set_accounts_is_test_tenant p = Some (Some false) →
  (update_account db a now id p).2 = db
  ∧ (update_account db a now id p).1 ≠ Ok 1%nat.
Proof.
  intros Hold Hflag Hp. rewrite update_account_unfold, Hold.
  destruct (is_account_member db a id) eqn:Hm; [|done].
  cbn zeta. unfold update_own_accounts_check. simpl. rewrite Hp. simpl.
  set (visible := filter _ (map_to_list (accounts db))).
  assert ((id, old) ∈ visible) as Hin.
  { apply list_elem_of_filter. split; [done|]. by apply elem_of_map_to_list. }
  destruct visible as [|x [|y rest]] eqn:Hvis; simpl.
  - by apply elem_of_nil in Hin.
  - apply list_elem_of_singleton in Hin as <-. simpl. rewrite Hflag. done.
  - done.
Qed.

(** Setting the flag to true is accepted for every member of the
    account. *)
Lemma is_test_tenant_set db a now id p old :
  accounts db !! id = Some old →
  is_account_member db a id = true →
  set_accounts_is_test_tenant p = Some (Some true) →
  (update_account db a now id p).1 = Ok 1%nat
  ∧ accounts_is_test_tenant <$> accounts (update_account db a now id p).2 !! id
    = Some (Some true).
Proof.
  intros Hold Hm Hp. rewrite update_account_unfold, Hold, Hm.
  cbn zeta. unfold update_own_accounts_check. simpl. rewrite Hp. simpl.
  split; [done|]. rewrite lookup_insert_eq. simpl. by rewrite Hp.
Qed.

(** C8 on the code: user 7 belongs to accounts 1 and 2.  An update of
    account 1 that leaves is_test_tenant as it is (false) is refused: the
    subquery of the policy returns the flag of both accounts, and the
    statement fails with more than one row returned by a subquery. *)
Theorem no_op_update_refused_for_member_of_two_accounts :
  is_account_member db_two_accounts (Some 7%positive) 1%positive = true
  ∧ update_account db_two_accounts (Some 7%positive) 20%Z 1%positive
      (rename_account "Renamed")
    = (Err cardinality_violation, db_two_accounts)
  ∧ update_account db_two_accounts (Some 7%positive) 20%Z 1%positive
      (set_test_tenant false)
    = (Err cardinality_violation, db_two_accounts).
Proof. split_and!; reflexivity. Qed.

(** The same renaming by a member of one account only goes through. *)
Example no_op_update_accepted_for_member_of_one_account :
  (update_account db_team (Some 8%positive) 20%Z 1%positive
     (rename_account "Renamed")).1 = Ok 1%nat.
Proof. reflexivity. Qed.

(** * Further properties of the routes, policies and schemas *)

(** ** The schema's date comparison against the column's *)

Lemma digit_code c :
  is_digit c = true →
  N_of_ascii c = (48 + digit_val c)%N ∧ (digit_val c <= 9)%N.
Proof.
  destruct c as [[] [] [] [] [] [] [] []]; try discriminate;
    intros _; vm_compute; split; congruence.
Qed.

Lemma hyphen_code c : Ascii.eqb c "-" = true → c = "-"%char.
Proof. apply Ascii.eqb_eq. Qed.

Ltac compare_digits :=
  repeat match goal with
         | |- context [(?x ?= ?y)%N] =>
             destruct (N.compare_spec x y); cbn iota
         end.

Ltac order_cases :=
  repeat match goal with
         | |- context [(?x <? ?y)%N] => destruct (N.ltb_spec x y)
         | |- context [(?x <=? ?y)%N] => destruct (N.leb_spec x y)
         end.

Lemma string_order_is_date_order (s e : string) (ds de : date) :
  date_in s = Some ds → date_in e = Some de →
  js_string_geb e s = date_geb de ds.
Proof.
  intros Hs He.
  pose proof (date_in_DateString _ _ Hs) as Hfs.
  pose proof (date_in_DateString _ _ He) as Hfe.
  destruct s as [|a1 [|a2 [|a3 [|a4 [|a5 [|a6 [|a7 [|a8 [|a9 [|a10 [|? ?]]]]]]]]]]];
    try discriminate.
  destruct e as [|b1 [|b2 [|b3 [|b4 [|b5 [|b6 [|b7 [|b8 [|b9 [|b10 [|? ?]]]]]]]]]]];
    try discriminate.
  unfold date_in in Hs, He. rewrite Hfs in Hs. rewrite Hfe in He.
  cbn [list_ascii_of_string] in Hs, He.
  unfold DateString in Hfs, Hfe. cbn [list_ascii_of_string] in Hfs, Hfe.
  rewrite !andb_true_iff in Hfs, Hfe. destruct_and!.
  repeat match goal with
         | H : Ascii.eqb _ _ = true |- _ => apply hyphen_code in H; subst
         | H : is_digit _ = true |- _ => apply digit_code in H as [? ?]
         end.
  destruct (_ && _ && _)%bool in Hs; [|done].
  destruct (_ && _ && _)%bool in He; [|done].
  injection Hs as <-. injection He as <-.
  unfold js_string_geb, String.leb. cbn [String.compare].
  unfold Ascii.compare.
  repeat match goal with H : N_of_ascii _ = _ |- _ => rewrite H; clear H end.
  rewrite N.compare_refl.
  unfold date_geb, date_leb. cbn [d_year d_month d_day].
  compare_digits; order_cases; try reflexivity; lia.
Qed.

(** X1: on two YYYY-MM-DD texts that are calendar days, the comparison the
    schemas make (JavaScript's >= on the two strings) gives the same
    answer as the comparison the valid_dates constraint makes on the two
    dates. *)
Theorem schema_date_order_agrees (s e : string) (ds de : date) :
  date_in s = Some ds → date_in e = Some de →
  js_string_geb e s = date_geb de ds.
Proof. apply string_order_is_date_order. Qed.

Lemma schema_date_order_agrees_witness :
  js_string_geb "2026-01-14" "2026-01-01"
  = date_geb (Date 2026 1 14) (Date 2026 1 1).
Proof.
  apply (schema_date_order_agrees "2026-01-01" "2026-01-14"); reflexivity.
Defined.

(** X2: a body that CreateSprintSchema accepts never runs into the
    valid_dates check of the table: POST /sprints has no answer carrying
    that violation (a PATCH naming one date can, the schema then has
    nothing to compare). *)
Theorem post_sprint_never_violates_valid_dates (db : DB) (a : actor)
    (now : timestamptz) (new_id : uuid) (body : CreateSprintInput) :
  (post_sprint db a now new_id body).1
  ≠ sprint_error 500 (error_message valid_dates_violation).
Proof.
  unfold post_sprint.
  destruct (CreateSprintSchema body) eqn:Hz; simpl; [|done].
  destruct (select_team db a _) as [team|]; [|done].
  destruct (date_in (cs_start_date body)) as [ds|] eqn:Hs; [|done].
  destruct (date_in (cs_end_date body)) as [de|] eqn:He; [|done].
  unfold CreateSprintSchema in Hz. rewrite !andb_true_iff in Hz.
  destruct Hz as (_ & Hge).
  rewrite (string_order_is_date_order _ _ _ _ Hs He) in Hge.
  unfold insert_sprint, readable.
  rewrite !(proj1 (sprints_policy_all _ _ _ _)),
          !(proj2 (sprints_policy_all _ _ _ _)).
  cbn [fst snd sprints_account_id].
  destruct (is_account_member db a (teams_account_id team)); simpl; [|done].
  unfold valid_dates. cbn [sprints_end_date sprints_start_date].
  rewrite Hge. simpl.
  repeat (match goal with
          | |- context [if ?b then _ else _] => destruct b
          end; [done|]).
  done.
Qed.

(** ** Sprints the actor cannot reach, and what a delete leaves behind *)

Lemma sprint_unreachable_verdict db a id old :
  sprints db !! id = Some old → sprint_unreachable db a id →
  ∀ c, row_using sprints_policies db a c (id, old) = Reject.
Proof.
  unfold sprint_unreachable. intros -> Hm c.
  rewrite (proj1 (sprints_policy_all _ _ _ _)). simpl. by rewrite Hm.
Qed.

(** X3: a PATCH with a well-formed body on a sprint the actor cannot
    reach is answered 500 with the no-row message of .single(), whether
    the sprint does not exist or belongs to a foreign account, and changes
    nothing. *)
Theorem patch_sprint_unreachable (db : DB) (a : actor) (now : timestamptz)
    (id : uuid) (body : UpdateSprintInput) (p : sprint_patch) :
  UpdateSprintSchema body = true →
  sprint_patch_of_body body = Ok p →
  sprint_unreachable db a id →
  patch_sprint db a now id body = (sprint_error 500 (error_message no_rows), db).
Proof.
  intros Hz Hp Hun. unfold patch_sprint. rewrite Hz, Hp. cbn [negb].
  unfold update_sprint, readable.
  destruct (sprints db !! id) as [old|] eqn:Hold; [|done].
  by rewrite !(sprint_unreachable_verdict db a id old Hold Hun).
Qed.

Lemma patch_sprint_unreachable_witness :
  patch_sprint db_sprint (Some 9%positive) 5%Z 4%positive
    (end_date_only "2026-02-01")
  = (sprint_error 500 (error_message no_rows), db_sprint).
Proof.
  apply (patch_sprint_unreachable db_sprint (Some 9%positive) 5%Z 4%positive
           (end_date_only "2026-02-01")
           {| set_sprints_name := None; set_sprints_start_date := None;
              set_sprints_end_date := Some (Date 2026 2 1);
              set_sprints_goal := None; set_sprints_status := None |});
    reflexivity.
Defined.



Lemma before_update_sprint_id now old p :
  wi_sprint_id (work_item_before_update now old p)
  = default (wi_sprint_id old) (set_wi_sprint_id p).
Proof.
  unfold work_item_before_update, handle_work_item_completion.
  repeat case_bool_decide; simpl; done.
Qed.

Lemma set_null_clears now id w :
  wi_sprint_id (work_item_set_null now id w) ≠ Some id.
Proof.
  unfold work_item_set_null. case_bool_decide; [|done].
  by rewrite before_update_sprint_id.
Qed.

(** X5: for a member of the sprint's account, DELETE /sprints/:id is
    refused (409, nothing changed) exactly when a kudos row references
    the sprint.  Otherwise it answers 200 and afterwards no row of
    work_items, survey_responses, kudos, sprint_commitments or
    sprint_snapshots references the sprint; no work item is removed and
    the other sprints are untouched. *)
Theorem delete_sprint_by_member (db : DB) (a : actor) (now : timestamptz)
    (id : uuid) (old : sprint_row) :
  sprints db !! id = Some old →
  is_account_member db a (sprints_account_id old) = true →
  if bool_decide (map_Exists (λ _ k, kudos_sprint_id k = Some id) (kudos db))
  then delete_sprint_route db a now id
       = (sprint_error 409 sprint_blocked_message, db)
  else (delete_sprint_route db a now id).1 = sprint_message 200 "Sprint deleted"
       ∧ no_reference_to_sprint (delete_sprint_route db a now id).2 id
       ∧ dom (work_items (delete_sprint_route db a now id).2) = dom (work_items db)
       ∧ sprints (delete_sprint_route db a now id).2 = delete id (sprints db).
Proof.
  intros Hold Hm.
  unfold delete_sprint_route, delete_sprint, readable. rewrite Hold.
  rewrite !(proj1 (sprints_policy_all _ _ _ _)). simpl. rewrite Hm. simpl.
  case_bool_decide as Hk; simpl; [done|].
  split_and!; try done.
  - unfold no_reference_to_sprint; simpl. split_and!.
    + apply lookup_delete_eq.
    + apply map_Forall_fmap. intros k w _. apply set_null_clears.
    + intros k r [_ H]%map_lookup_filter_Some. exact H.
    + intros k r Hr Href. apply Hk. by exists k, r.
    + intros k r [_ H]%map_lookup_filter_Some. exact H.
    + intros k r [_ H]%map_lookup_filter_Some. exact H.
  - apply dom_fmap_L.
Qed.

Lemma delete_sprint_by_member_witness :
  (delete_sprint_route db_work (Some 7%positive) 20%Z 4%positive).1
  = sprint_message 200 "Sprint deleted"
  ∧ no_reference_to_sprint
      (delete_sprint_route db_work (Some 7%positive) 20%Z 4%positive).2 4%positive.
Proof.
  pose proof (delete_sprint_by_member db_work (Some 7%positive) 20%Z 4%positive
                sample_sprint eq_refl eq_refl) as H.
  rewrite bool_decide_eq_false_2 in H.
  - destruct H as (H1 & H2 & _). by split.
  - intros (k & r & Hk & _). vm_compute in Hk. discriminate.
Defined.

(** ** Listing sprints *)






(** ** Reading and deleting surveys *)









Lemma no_lead_of_no_team db a : exists_lead_membership db a None = false.
Proof. unfold exists_lead_membership. by destruct (auth_uid a). Qed.

(** X10: a survey without a team (a system-wide template) cannot be
    written through the policies by anyone: every insert, update or
    delete aimed at such a row, and every update that would turn a row
    into one, is refused; and the survey both creation paths write is
    never marked is_system_template. *)
Theorem teamless_surveys_are_read_only (db : DB) (a : actor) :
  (∀ op : operation (uuid * survey_row),
     is_write op → surveys_team_id (target op).2 = None →
     permitted surveys_policies db a op ≠ Pass)
  ∧ (∀ o n : uuid * survey_row,
       surveys_team_id n.2 = None →
       permitted surveys_policies db a (op_update o n) ≠ Pass)
  ∧ (∀ acc team title act,
       surveys_is_system_template (survey_values acc team title act)
       = Some false).
Proof.
  split_and!.
  - intros [r|n|o n|o] Hw Ht Hp; simpl in *; [done|..].
    + pose proof (surveys_manage_only db a INSERT n ltac:(done) (or_intror Hp))
        as Hl. by rewrite Ht, no_lead_of_no_team in Hl.
    + apply conj_pass in Hp as [Hp _].
      pose proof (surveys_manage_only db a UPDATE o ltac:(done) (or_introl Hp))
        as Hl. by rewrite Ht, no_lead_of_no_team in Hl.
    + pose proof (surveys_manage_only db a DELETE o ltac:(done) (or_introl Hp))
        as Hl. by rewrite Ht, no_lead_of_no_team in Hl.
  - intros o n Ht [_ Hp]%conj_pass.
    pose proof (surveys_manage_only db a UPDATE n ltac:(done) (or_intror Hp))
      as Hl. by rewrite Ht, no_lead_of_no_team in Hl.
  - done.
Qed.

Lemma teamless_surveys_are_read_only_witness :
  permitted surveys_policies db_team (Some 7%positive)
    (op_delete (5%positive, template_survey)) ≠ Pass.
Proof.
  destruct (teamless_surveys_are_read_only db_team (Some 7%positive))
    as (H & _).
  apply (H (op_delete (5%positive, template_survey))); [exact I | reflexivity].
Defined.

(** ** Joining an account *)

Lemma join_policy db a r :
  row_check account_members_policies db a INSERT r
  = of_bool (bool_decide (auth_uid a = Some r.1.2)).
Proof.
  unfold row_check, account_members_policies, applies, check_expr; simpl.
  by destruct (bool_decide _).
Qed.

(** X11: the Join accounts policy lets an authenticated user insert a
    membership row for themself, with any role, into any existing account
    they are not yet in, and the user then passes is_account_member for
    that account; a row for another user is refused, and no policy allows
    a membership row to be updated or deleted. *)
Theorem self_join_any_account (db : DB) (u acc : uuid) (role : account_role) :
  is_Some (accounts db !! acc) →
  account_members db !! (acc, u) = None →
  (insert_account_member db (Some u) acc u role).1 = Ok ()
  ∧ is_account_member (insert_account_member db (Some u) acc u role).2
      (Some u) acc = true
  ∧ account_members (insert_account_member db (Some u) acc u role).2 !! (acc, u)
    = Some role
  ∧ (∀ other, other ≠ u →
       insert_account_member db (Some u) acc other role
       = (Err (insufficient_privilege "account_members"), db))
  ∧ (∀ o n, permitted account_members_policies db (Some u) (op_update o n) = Reject)
  ∧ (∀ o, permitted account_members_policies db (Some u) (op_delete o) = Reject).
Proof.
  intros Hacc Hnew. split_and!.
  1-3: unfold insert_account_member; rewrite join_policy; simpl;
       rewrite bool_decide_eq_true_2 by done; simpl; rewrite Hnew; simpl;
       rewrite (bool_decide_eq_true_2 _ Hacc); simpl.
  - done.
  - unfold is_account_member; simpl. rewrite lookup_insert_eq.
    by apply bool_decide_eq_true_2.
  - apply lookup_insert_eq.
  - intros other Hne. unfold insert_account_member. rewrite join_policy. simpl.
    rewrite bool_decide_eq_false_2; [done|]. unfold auth_uid. congruence.
  - done.
  - done.
Qed.

Lemma self_join_any_account_witness :
  is_account_member db_team (Some 9%positive) 1%positive = false
  ∧ is_account_member
      (insert_account_member db_team (Some 9%positive) 1%positive 9%positive
         owner).2 (Some 9%positive) 1%positive = true.
Proof.
  split; [reflexivity|].
  destruct (self_join_any_account db_team 9%positive 1%positive owner)
    as (_ & H & _).
  - by eexists.
  - reflexivity.
  - exact H.
Defined.

(** ** The test-tenant flag as a latch *)

Lemma update_account_keeps_flag db a now id' p id :
  is_test_tenant db id →
  is_test_tenant (update_account db a now id' p).2 id.
Proof.
  intros (old & Hold & Hflag). rewrite update_account_unfold.
  destruct (accounts db !! id') as [old'|] eqn:Hold'; [|by exists old].
  destruct (is_account_member db a id') eqn:Hm; [|by exists old].
  cbn zeta.
  destruct (update_own_accounts_check db a _) eqn:Hchk; simpl;
    [|by exists old..].
  destruct (decide (id' = id)) as [->|Hne].
  - rewrite Hold in Hold'. injection Hold' as <-.
    eexists. split; [apply lookup_insert_eq|]. simpl.
    destruct (set_accounts_is_test_tenant p) as [[[]|]|] eqn:Hp; simpl;
      try done; exfalso.
    + revert Hchk. unfold update_own_accounts_check. simpl. rewrite Hp. simpl.
      set (visible := filter _ (map_to_list (accounts db))).
      assert ((id, old) ∈ visible) as Hin.
      { apply list_elem_of_filter. split; [done|]. by apply elem_of_map_to_list. }
      destruct visible as [|x [|y rest]] eqn:Hvis; simpl;
        [by apply elem_of_nil in Hin| |discriminate].
      apply list_elem_of_singleton in Hin as <-. simpl. rewrite Hflag.
      discriminate.
    + revert Hchk. unfold update_own_accounts_check. simpl. rewrite Hp. simpl.
      set (visible := filter _ (map_to_list (accounts db))).
      assert ((id, old) ∈ visible) as Hin.
      { apply list_elem_of_filter. split; [done|]. by apply elem_of_map_to_list. }
      destruct visible as [|x [|y rest]] eqn:Hvis; simpl;
        [by apply elem_of_nil in Hin| |discriminate].
      apply list_elem_of_singleton in Hin as <-. simpl. rewrite Hflag.
      discriminate.
  - exists old. split; [|done]. simpl. by rewrite lookup_insert_ne.
Qed.

(** X12: once an account is flagged is_test_tenant, it stays flagged
    through every sequence of updates on accounts, whoever runs them and
    whatever they set (false and NULL included): the policy refuses each
    update that would take the flag away. *)
Theorem test_tenant_flag_is_a_latch (db : DB) (id : uuid)
    (reqs : list account_update) :
  is_test_tenant db id →
  is_test_tenant (run_account_updates db reqs) id.
Proof.
  revert db. induction reqs as [|r reqs IH]; intros db Hflag; [done|].
  simpl. apply IH. by apply update_account_keeps_flag.
Qed.

Lemma test_tenant_flag_is_a_latch_witness :
  is_test_tenant
    (run_account_updates db_test_tenant
       [ {| au_actor := Some 7%positive; au_now := 3%Z; au_id := 1%positive;
            au_patch := set_test_tenant false |};
         {| au_actor := Some 7%positive; au_now := 4%Z; au_id := 1%positive;
            au_patch := {| set_accounts_name := Some "B";
                           set_accounts_is_test_tenant := Some None |} |} ])
    1%positive.
Proof.
  apply test_tenant_flag_is_a_latch.
  eexists. split; reflexivity.
Defined.

(** ** When the creation procedure succeeds, and what it returns *)








Lemma check_question_error_message db v e :
  check_question db v = Err e →
  includes (error_message e) "Access Denied" = false.
Proof.
  unfold check_question.
  repeat (match goal with
          | |- context [match ?o with Some _ => _ | None => _ end] =>
              destruct o
          | |- context [if ?b then _ else _] => destruct b
          end; try (intros [= <-]; reflexivity)).
Qed.

Lemma bulk_insert_error_message vs : ∀ db e db',
  insert_question_rows no_guard db vs = (Err e, db') →
  includes (error_message e) "Access Denied" = false.
Proof.
  induction vs as [|v vs IH]; intros db e db'; [done|].
  cbn [insert_question_rows].
  change (no_guard db v) with (@None pg_error).
  destruct (check_question db v) as [row|e'] eqn:Hc.
  - destruct (insert_question_rows no_guard _ vs) as [[rows|e''] db''] eqn:Hrec;
      [done|].
    intros [= <- <-]. by eapply IH.
  - intros [= <- <-]. by eapply check_question_error_message.
Qed.

(** X15: the RPC route answers 403 exactly when the caller is not a
    member of the account named in the request; every other failure of
    the procedure (id taken, missing account or team, a question refused
    by a constraint) is answered 500, and success 201.  Nothing is stored
    unless the answer is 201. *)
Theorem rpc_route_status (db : DB) (a : actor) (new_id : uuid)
    (input : CreateSurveyInput) :
  match post_survey_rpc db a new_id input with
  | (survey_rpc_json status _, _) =>
      status = 201%nat ∧ is_account_member db a (csv_account_id input) = true
  | (survey_error status _, db') =>
      db' = db
      ∧ (is_account_member db a (csv_account_id input) = false → status = 403%nat)
      ∧ (is_account_member db a (csv_account_id input) = true → status = 500%nat)
  | (survey_json _ _ _, _) => False
  end.
Proof.
  unfold post_survey_rpc. rewrite create_survey_with_questions_unfold.
  destruct (is_account_member db a (csv_account_id input)); cbn [negb].
  2:{ simpl. by split_and!. }
  unfold insert_survey_row.
  repeat (match goal with
          | |- context [if ?b then _ else _] => destruct b
          end; [simpl; by split_and!|]).
  destruct (insert_question_rows no_guard _ _) as [[rows|e] db2] eqn:Hq.
  - by split.
  - rewrite (bulk_insert_error_message _ _ _ _ Hq). by split_and!.
Qed.





(** ** Creating and listing teams *)

Lemma teams_insert_policy db a r :
  row_check teams_policies db a INSERT r = Pass →
  owner_or_admin db a (teams_account_id r.2).
Proof.
  unfold row_check, teams_policies, applies, check_expr, owner_or_admin; simpl.
  destruct (bool_decide (auth_role a = role_authenticated)); simpl; [|done].
  destruct (auth_uid a) as [u|]; simpl; [|done].
  unfold select_account_member.
  destruct (account_members db !! (teams_account_id r.2, u)) as [role|] eqn:Hr;
    simpl; [|done].
  destruct (is_pass _); [|done].
  destruct role; simpl; try done; intros _; exists u; eauto.
Qed.

Lemma insert_team_err db a id r e db' :
  insert_team db a id r = (Err e, db') → db' = db.
Proof.
  unfold insert_team.
  destruct (new_row_verdict _ _); [by intros [= _ <-]|].
  repeat (match goal with
          | |- context [if ?b then _ else _] => destruct b
          end; [by intros [= _ <-]|]).
  done.
Qed.

(** X17: under the policies of the schema, POST /teams never answers 201.
    team_members has no insert policy, so the lead-membership insert of
    the handler is always refused: a caller who is owner or admin of the
    account gets the team created and the 500 answer that reports it
    together with the refused membership; every other answer leaves the
    database unchanged.  No team_members row is ever written. *)
Theorem post_team_never_answers_created (db : DB) (a : actor) (new_id : uuid)
    (body : CreateTeamInput) :
  match post_team db a new_id body with
  | (team_json _ _, _) => False
  | (team_partial status _ details team, db') =>
      status = 500%nat
      ∧ details = insufficient_privilege "team_members"
      ∧ team = (new_id, team_values body)
      ∧ owner_or_admin db a (ct_account_id body)
      ∧ db' = with_teams db (<[new_id := team_values body]> (teams db))
  | (_, db') => db' = db
  end.
Proof.
  unfold post_team.
  destruct (negb (CreateTeamSchema body)); [done|].
  destruct (auth_uid a) as [user|]; [|done].
  fold (team_values body).
  destruct (insert_team db a new_id (team_values body)) as [[team|e] db1] eqn:Ht;
    [|by apply insert_team_err in Ht].
  rewrite insert_team_member_refused.
  pose proof Ht as [-> ->]%insert_team_ok.
  split_and!; try done.
  unfold insert_team in Ht.
  destruct (new_row_verdict _ _) eqn:Hv; [done|].
  apply new_row_verdict_none, conj_pass in Hv as [Hc _].
  by apply teams_insert_policy in Hc.
Qed.

Lemma team_member_read_policy db a team usr role :
  select_team_member db a team usr = Some role ↔
  team_members db !! (team, usr) = Some role
  ∧ auth_role a = role_authenticated
  ∧ ∃ t, teams db !! team = Some t
         ∧ is_account_member db a (teams_account_id t) = true.
Proof.
  unfold select_team_member, readable, row_using, team_members_policies,
    applies, select_team, teams_policies. simpl.
  destruct (team_members db !! (team, usr)) as [r|]; simpl;
    [|intuition congruence].
  destruct a as [u|]; simpl; [|intuition congruence].
  destruct (teams db !! team) as [t|]; simpl.
  - unfold readable, row_using, applies. simpl.
    destruct (is_account_member db (Some u) (teams_account_id t)) eqn:Hm; simpl.
    + rewrite Hm. simpl. split; [|intuition congruence].
      intros [= <-]. split_and!; eauto.
    + split; [done|]. intros (_ & _ & t' & [= <-] & Hm'). congruence.
  - split; [done|]. by intros (_ & _ & t' & [=] & _).
Qed.

Lemma teams_read_policy db a r :
  is_pass (readable teams_policies db a r) = true ↔
  auth_role a = role_authenticated
  ∧ is_account_member db a (teams_account_id r.2) = true.
Proof.
  unfold readable, row_using, teams_policies, applies. simpl.
  destruct a as [u|]; simpl; [|intuition congruence].
  destruct (is_account_member db (Some u) _); simpl; intuition congruence.
Qed.

(** X18: GET /teams/mine answers 401 without a user, and otherwise
    exactly the teams in which the user holds a membership row and whose
    account the user is a member of, each with the user's role in it;
    GET /teams lists exactly the teams of the user's accounts.  A team
    with deleted_at set is listed like any other. *)
Theorem team_listings (db : DB) (a : actor) :
  match auth_uid a with
  | None => get_my_teams db a = team_read_error 401 "Unauthorized"
  | Some user =>
      ∃ mine,
        get_my_teams db a = team_mine 200 mine
        ∧ (∀ id t role, ((id, t), role) ∈ mine ↔
             teams db !! id = Some t
             ∧ team_members db !! (id, user) = Some role
             ∧ is_account_member db a (teams_account_id t) = true)
  end
  ∧ ∃ all,
      get_teams db a = team_list 200 all
      ∧ (∀ id t, (id, t) ∈ all ↔
           teams db !! id = Some t ∧ auth_role a = role_authenticated
           ∧ is_account_member db a (teams_account_id t) = true).
Proof.
  split.
  - unfold get_my_teams. destruct (auth_uid a) as [user|] eqn:Hu; [|done].
    eexists. split; [reflexivity|]. intros id t role.
    rewrite list_elem_of_omap. split.
    + intros ([id' t'] & Hin%elem_of_map_to_list & Hsel).
      destruct (is_pass _) eqn:Hr; [|done]. simpl in Hsel.
      destruct (select_team_member db a id' user) as [role'|] eqn:Hm;
        simpl in Hsel; [|done].
      injection Hsel as -> -> ->.
      apply teams_read_policy in Hr as [_ Hr].
      apply team_member_read_policy in Hm as (Hm & _). by split_and!.
    + intros (Ht & Hm & Hacc). exists (id, t).
      split; [by apply elem_of_map_to_list|].
      assert (auth_role a = role_authenticated) as Hauth
        by (destruct a; [done|by inversion Hu]).
      rewrite (proj2 (teams_read_policy db a (id, t))) by done.
      cbn [fst].
      rewrite (proj2 (team_member_read_policy db a id user role)); [done|].
      split_and!; eauto.
  - eexists. split; [reflexivity|]. intros id t.
    rewrite list_elem_of_filter, elem_of_map_to_list, teams_read_policy.
    simpl. tauto.
Qed.

(** ** The account a sprint is filed under *)

Lemma select_team_lookup db a id t :
  select_team db a id = Some t → teams db !! id = Some t.
Proof.
  unfold select_team. destruct (teams db !! id) as [t'|]; simpl; [|done].
  destruct (is_pass _); congruence.
Qed.

(** X19: the sprint routes keep every stored sprint filed under the
    account of its team: POST takes account_id from the team row it
    looked up, PATCH cannot name team_id or account_id, and DELETE only
    removes a sprint. *)
Theorem sprint_routes_keep_team_account (db : DB) (a : actor)
    (now : timestamptz) (id : uuid) :
  sprints_follow_team db →
  (∀ body, sprints_follow_team (post_sprint db a now id body).2)
  ∧ (∀ body, sprints_follow_team (patch_sprint db a now id body).2)
  ∧ sprints_follow_team (delete_sprint_route db a now id).2.
Proof.
  intros Hall. split_and!.
  - intros body. unfold post_sprint.
    destruct (negb (CreateSprintSchema body)); [done|].
    destruct (select_team db a _) as [team|] eqn:Hteam; [|done].
    apply select_team_lookup in Hteam.
    destruct (date_in (cs_start_date body)); [|done].
    destruct (date_in (cs_end_date body)); [|done].
    match goal with
    | |- context [insert_sprint db a id ?r] =>
        pose proof (insert_sprint_cases db a id r) as H;
        destruct (insert_sprint db a id r) as [[row|e] db']
    end; simpl; [|by subst].
    destruct H as (_ & _ & ->). unfold sprints_follow_team. simpl.
    apply map_Forall_insert_2; [|done]. simpl. eauto.
  - intros body. unfold patch_sprint.
    destruct (negb (UpdateSprintSchema body)); [done|].
    destruct (sprint_patch_of_body body) as [p|e]; [|done].
    pose proof (update_sprint_cases db a now id p) as H.
    destruct (update_sprint db a now id p) as [[row|e] db']; simpl; [|by subst].
    destruct H as (old & Hold & -> & _ & ->).
    unfold sprints_follow_team. simpl.
    apply map_Forall_insert_2; [|done]. simpl. by apply (Hall id).
  - unfold delete_sprint_route, delete_sprint, readable.
    destruct (sprints db !! id) as [old|]; [|done].
    rewrite !(proj1 (sprints_policy_all _ _ _ _)).
    destruct (is_account_member db a _); simpl; [|done].
    destruct (bool_decide _); [done|].
    unfold sprints_follow_team. simpl. by apply map_Forall_delete.
Qed.

Lemma sprint_routes_keep_team_account_witness :
  sprints_follow_team
    (patch_sprint db_sprint (Some 7%positive) 5%Z 4%positive
       (end_date_only "2026-02-01")).2.
Proof.
  destruct (sprint_routes_keep_team_account db_sprint (Some 7%positive) 5%Z
              4%positive) as (_ & H & _).
  - apply map_Forall_singleton. eexists. split; reflexivity.
  - apply H.
Defined.

(** ** Kudos and survey responses *)

Lemma kudos_own_pass db a r :
  kudos_own db a r = Pass ↔
  is_team_member db a (kudos_team_id r.2) = true
  ∧ is_Some (auth_uid a) ∧ kudos_sender_user_id r.2 = auth_uid a.
Proof.
  unfold kudos_own. rewrite of_bool_pass, andb_true_iff.
  destruct (kudos_sender_user_id r.2) as [s|], (auth_uid a) as [u|]; simpl.
  - rewrite bool_decide_eq_true. split.
    + intros [? ->]. split_and!; eauto.
    + by intros (? & _ & [= ->]).
  - split; [by intros [_ [=]]|]. by intros (_ & [? [=]] & _).
  - split; [by intros [_ [=]]|]. by intros (_ & _ & [=]).
  - split; [by intros [_ [=]]|]. by intros (_ & [? [=]] & _).
Qed.

(** X20: through the kudos policies a kudos row can be inserted only by
    a member of its team naming themself as sender, and updated or
    deleted only by its sender while a member of the team; the rows of a
    team are readable by that team's members only.  No kudos policy
    consults account membership. *)
Theorem kudos_policy_decisions (db : DB) (a : actor) :
  (∀ op : operation (uuid * kudos_row),
     is_write op →
     (permitted kudos_policies db a op = Pass ↔
      match op with
      | op_update o n => kudos_own db a o = Pass ∧ kudos_own db a n = Pass
      | _ => kudos_own db a (target op) = Pass
      end))
  ∧ (∀ r, kudos_own db a r = Pass →
          is_team_member db a (kudos_team_id r.2) = true
          ∧ kudos_sender_user_id r.2 = auth_uid a)
  ∧ (∀ r, permitted kudos_policies db a (op_select r) = Pass ↔
          is_team_member db a (kudos_team_id r.2) = true).
Proof.
  assert (∀ c r, c ≠ SELECT →
            row_using kudos_policies db a c r = kudos_own db a r
            ∧ row_check kudos_policies db a c r = kudos_own db a r) as Hw.
  { intros c r Hc.
    unfold row_using, row_check, kudos_policies, applies, check_expr; simpl.
    rewrite (bool_decide_eq_false_2 (c = SELECT)) by done. simpl.
    destruct (bool_decide (auth_role a = role_authenticated)) eqn:Hauth; simpl.
    - by destruct (kudos_own db a r).
    - unfold kudos_own, is_team_member.
      destruct a; [done|]. simpl. done. }
  split_and!.
  - intros [r|n|o n|o] Hwr; simpl; [done|..].
    + by rewrite (proj2 (Hw INSERT n ltac:(done))).
    + rewrite conj_pass, (proj1 (Hw UPDATE o ltac:(done))),
        (proj2 (Hw UPDATE n ltac:(done))). done.
    + by rewrite (proj1 (Hw DELETE o ltac:(done))).
  - intros r Hr. apply kudos_own_pass in Hr. tauto.
  - intros r. unfold permitted, row_using, kudos_policies, applies; simpl.
    destruct a as [u|]; simpl.
    + destruct (is_team_member db (Some u) (kudos_team_id r.2)) eqn:Hm; simpl;
        [done|].
      unfold kudos_own. rewrite Hm. simpl. done.
    + unfold is_team_member. simpl. done.
Qed.

Lemma response_own_author a r :
  response_own a r = true ↔ is_Some (auth_uid a) ∧ sr_user_id r = auth_uid a.
Proof.
  unfold response_own.
  destruct (sr_user_id r) as [s|], (auth_uid a) as [u|]; simpl.
  - rewrite bool_decide_eq_true. split.
    + intros ->. eauto.
    + by intros (_ & [= ->]).
  - split; [done|]. by intros ([? [=]] & _).
  - split; [done|]. by intros (_ & [=]).
  - split; [done|]. by intros ([? [=]] & _).
Qed.

Lemma response_sprint_of_team_spec db a r :
  response_sprint_of_team db a r = true →
  ∃ sid s, sr_sprint_id r = Some sid ∧ sprints db !! sid = Some s
           ∧ is_account_member db a (sprints_account_id s) = true
           ∧ is_team_member db a (Some (sprints_team_id s)) = true.
Proof.
  unfold response_sprint_of_team, select_sprint, readable.
  destruct (sr_sprint_id r) as [sid|]; [|done].
  destruct (sprints db !! sid) as [s|] eqn:Hs; simpl; [|done].
  rewrite (proj1 (sprints_policy_all _ _ _ _)). simpl.
  destruct (is_account_member db a (sprints_account_id s)) eqn:Hm; simpl;
    [|done].
  intros Ht. exists sid, s. by split_and!.
Qed.

(** X21: through the survey_responses policies a response can be
    inserted, updated or deleted only by the user it belongs to
    (user_id = auth.uid()), and inserted only for a sprint of a team the
    user is in and of an account the user is a member of.  The
    is_confidential flag is read by no policy: changing it on the rows
    of an operation never changes the decision, for reads included. *)
Theorem survey_response_policy_decisions (db : DB) (a : actor) :
  (∀ op : operation (uuid * survey_response_row),
     is_write op →
     permitted survey_responses_policies db a op = Pass →
     sr_user_id (target op).2 = auth_uid a ∧ is_Some (auth_uid a))
  ∧ (∀ n, permitted survey_responses_policies db a (op_insert n) = Pass →
          ∃ sid s, sr_sprint_id n.2 = Some sid ∧ sprints db !! sid = Some s
                   ∧ is_account_member db a (sprints_account_id s) = true
                   ∧ is_team_member db a (Some (sprints_team_id s)) = true)
  ∧ (∀ op b,
       permitted survey_responses_policies db a
         (map_operation (with_confidential b) op)
       = permitted survey_responses_policies db a op).
Proof.
  split_and!.
  - intros [r|n|o n|o] Hw; simpl; [done|..];
      unfold row_using, row_check, survey_responses_policies, applies,
        check_expr; simpl;
      destruct (bool_decide (auth_role a = role_authenticated)); simpl;
      try done.
    + destruct (response_sprint_of_team db a n.2); simpl; [|done].
      destruct (response_own a n.2) eqn:Ho; simpl; [|done].
      intros _. apply response_own_author in Ho. tauto.
    + destruct (response_own a o.2) eqn:Ho; simpl; [|done].
      intros _. apply response_own_author in Ho. tauto.
    + destruct (response_own a o.2) eqn:Ho; simpl; [|done].
      intros _. apply response_own_author in Ho. tauto.
  - intros n. simpl.
    unfold row_check, survey_responses_policies, applies, check_expr; simpl.
    destruct (bool_decide (auth_role a = role_authenticated)); simpl; [|done].
    destruct (response_sprint_of_team db a n.2) eqn:Hs; simpl; [|done].
    intros _. by apply response_sprint_of_team_spec.
  - by intros [r|n|o n|o] b.
Qed.

Lemma survey_response_policy_decisions_witness :
  permitted survey_responses_policies db_sprint (Some 8%positive)
    (op_delete (1%positive,
                {| sr_survey_id := None; sr_user_id := Some 7%positive;
                   sr_sprint_id := Some 4%positive;
                   sr_is_confidential := false |})) ≠ Pass.
Proof.
  intros Hp.
  destruct (survey_response_policy_decisions db_sprint (Some 8%positive))
    as (H & _).
  apply H in Hp as [Hu _]; [|exact I]. discriminate Hu.
Defined.

(** ** What the compensating delete restores *)



